(** * Recipe manager backend: a model of [backend--project/server.js]

    The service is an Express application over a SQLite file.  The model
    keeps the three layers of the source apart:

    - the values that travel in requests and responses (JSON bodies whose
      keys may be missing, [null] or text);
    - the relational store: two rowid tables with their [NOT NULL],
      [UNIQUE] and [AUTOINCREMENT] rules, as declared by the
      [CREATE TABLE] statements of the source;
    - the route handlers, written in a small state-and-log monad: the state
      is the database, the log records every statement sent to it.

    The npm packages the server calls (validator.js, bcrypt, jsonwebtoken)
    and the two ambient services of SQLite that are not part of the schema
    (text-to-rowid comparison, [CURRENT_TIMESTAMP]) are gathered in the
    class [Libs] and stay abstract.

    Scope of the model.  A body key carries the JSON type of the column it
    feeds (text, or an integer for [categoryId]) or is [null] or missing.
    A token that verifies binds an integer user id, as every token that
    [generateToken] signs does.  Statements fail on the constraints of the
    schema only; foreign keys are declared but not enforced, as SQLite
    leaves them unless the connection turns them on, which the server
    does not do. *)

From Stdlib Require Import ZArith String Ascii List Bool Lia.
From stdpp Require Import base option list gmap fin_maps sorting.

Local Open Scope string_scope.
Local Open Scope list_scope.
Local Open Scope Z_scope.

(** ** JavaScript strings *)

Module Js.

(** [s.startsWith(p)], returning the rest of [s] behind the prefix. *)
Fixpoint strip_prefix (p s : string) : option string :=
  match p, s with
  | EmptyString, _ => Some s
  | String a p', String b s' =>
      if Ascii.eqb a b then strip_prefix p' s' else None
  | String _ _, EmptyString => None
  end.

(** [s.replace(p, "")] for a string pattern: the first occurrence of [p]
    is removed and the rest of [s] is kept as it is. *)
Fixpoint remove_first (p s : string) : string :=
  match strip_prefix p s with
  | Some rest => rest
  | None =>
      match s with
      | EmptyString => EmptyString
      | String c s' => String c (remove_first p s')
      end
  end.

(** [s.includes(p)]. *)
Fixpoint includes (p s : string) : bool :=
  match strip_prefix p s with
  | Some _ => true
  | None =>
      match s with
      | EmptyString => false
      | String _ s' => includes p s'
      end
  end.

(** Truthiness of a string: only [""] is falsy. *)
Definition truthy (s : string) : bool :=
  match s with EmptyString => false | String _ _ => true end.

End Js.

(** ** JSON values *)

(** A key of a request body: missing ([undefined] once destructured),
    [null], or a value. *)
Inductive field (A : Type) : Type :=
  | Absent
  | Null
  | Val (a : A).
Arguments Absent {A}.
Arguments Null {A}.
Arguments Val {A} a.

(** What [res.json] serialises. *)
#[local] Set Warnings "-register-all".
Inductive json : Type :=
  | JNull
  | JStr (s : string)
  | JNum (n : Z)
  | JArr (items : list json)
  | JObj (members : list (string * json)).
#[local] Set Warnings "register-all".

(** An object literal: [JSON.stringify] drops the keys whose value is
    [undefined]. *)
Definition obj (members : list (string * option json)) : json :=
  JObj (omap (fun '(k, v) => match v with Some j => Some (k, j) | None => None end)
             members).

Definition json_text (v : field string) : option json :=
  match v with
  | Absent => None
  | Null => Some JNull
  | Val s => Some (JStr s)
  end.

Definition json_int (v : field Z) : option json :=
  match v with
  | Absent => None
  | Null => Some JNull
  | Val n => Some (JNum n)
  end.

(** Member access on a serialised object. *)
Fixpoint assoc (k : string) (kv : list (string * json)) : option json :=
  match kv with
  | [] => None
  | (k', v) :: rest => if String.eqb k k' then Some v else assoc k rest
  end.

Definition member (k : string) (j : json) : option json :=
  match j with
  | JObj kv => assoc k kv
  | _ => None
  end.

Definition keys (j : json) : list string :=
  match j with
  | JObj kv => map fst kv
  | _ => []
  end.

(** ** External collaborators *)

(** The functions of the packages the server requires, and the two
    services of the SQLite engine that the schema does not determine.
    Random and time-dependent inputs are explicit arguments. *)
Class Libs : Type := {
  (** validator.js [isEmail], behind [body("email").isEmail()]. *)
  isEmail : string -> bool;
  (** The length validator.js [isLength] measures, behind
      [body("password").isLength({ min: 6 })]: the characters of the
      text, not the bytes that encode them. *)
  characters : string -> nat;
  (** [bcrypt.hash(data, rounds)]; the third argument is the salt that
      bcrypt draws for this call. *)
  bcrypt_hash : string -> Z -> string -> string;
  (** [bcrypt.compare(data, encrypted)]. *)
  bcrypt_compare : string -> string -> bool;
  (** [jwt.sign({ id }, secret, { expiresIn })] at a given clock reading;
      [expiresIn] is in seconds. *)
  jwt_sign : Z -> string -> Z -> Z -> string;
  (** [jwt.verify(token, secret, cb)] at a given clock reading: [None] is
      the [err] branch of the callback (bad signature, malformed token,
      expired), [Some id] is [decoded.id]. *)
  jwt_verify : string -> string -> Z -> option Z;
  (** Comparison of the INTEGER PRIMARY KEY column with a bound text
      parameter: the rowid the text denotes, if it denotes one. *)
  rowid_of_text : string -> option Z;
  (** [CURRENT_TIMESTAMP] at a given clock reading. *)
  current_timestamp : Z -> string
}.

(** ** express-validator *)

Module Validator.

(** The string a validator sees: missing and [null] values read as [""]. *)
Definition toString (v : field string) : string :=
  match v with
  | Val s => s
  | Absent | Null => ""
  end.

Definition notEmpty (v : field string) : bool :=
  negb (String.eqb (toString v) "").

Definition isLength_min `{Libs} (min : nat) (v : field string) : bool :=
  Nat.leb min (characters (toString v)).

(** One entry of [validationResult(req).array()]. *)
Record verror : Type := {
  ve_value : field string;
  ve_msg : string;
  ve_path : string
}.

(** [body(path).<validator>().withMessage(msg)] run on a request body:
    no entry when the validator accepts, one entry otherwise. *)
Definition chain (path : string) (value : field string)
    (validator : field string -> bool) (msg : string) : list verror :=
  if validator value then []
  else [ {| ve_value := value; ve_msg := msg; ve_path := path |} ].

Definition verror_json (e : verror) : json :=
  obj [ ("type", Some (JStr "field"));
        ("value", json_text (ve_value e));
        ("msg", Some (JStr (ve_msg e)));
        ("path", Some (JStr (ve_path e)));
        ("location", Some (JStr "body")) ].

End Validator.
Import Validator.

(** ** The SQLite store *)

Module Store.

(** [users]: id is the key of the table; the other columns are the row. *)
Record user_row : Type := {
  u_name : string;
  u_email : string;
  u_password : string;
  u_createdAt : string
}.

(** [recipes]: the four text columns are [NOT NULL], [imageUrl] and
    [categoryId] are nullable, [userId] is [NOT NULL]. *)
Record recipe_row : Type := {
  r_title : string;
  r_description : string;
  r_ingredients : string;
  r_instructions : string;
  r_imageUrl : option string;
  r_categoryId : option Z;
  r_userId : Z;
  r_createdAt : string
}.

(** A rowid table is a finite map from rowid to row; [AUTOINCREMENT] keeps
    the largest rowid ever handed out in [sqlite_sequence]. *)
Record db : Type := {
  users : gmap Z user_row;
  users_seq : Z;
  recipes : gmap Z recipe_row;
  recipes_seq : Z
}.

Definition empty_db : db :=
  {| users := ∅; users_seq := 0; recipes := ∅; recipes_seq := 0 |}.

Inductive sql_error : Type :=
  | NotNullFailed (column : string)
  | UniqueFailed (column : string).

(** [err.message] *)
Definition message (e : sql_error) : string :=
  match e with
  | NotNullFailed c =>
      String.append "SQLITE_CONSTRAINT: NOT NULL constraint failed: " c
  | UniqueFailed c =>
      String.append "SQLITE_CONSTRAINT: UNIQUE constraint failed: " c
  end.

(** Parameter binding: [undefined] leaves the parameter unbound, which
    SQLite reads as NULL, and [null] binds NULL. *)
Definition bind_param {A} (v : field A) : option A :=
  match v with
  | Val a => Some a
  | Absent | Null => None
  end.

(** The rows of a table, as a statement meets them.  The statements of
    the server ask for no order; the model lists the rows by rowid, as
    SQLite does when it walks a rowid table, so that a selection is a
    function of the table.  No property below is about this order. *)
Definition by_rowid {A} (x y : Z * A) : Prop := x.1 ≤ y.1.

#[local] Instance by_rowid_dec {A} (x y : Z * A) : Decision (by_rowid x y).
Proof. unfold by_rowid. apply _. Defined.

Definition scan {A} (t : gmap Z A) : list (Z * A) :=
  merge_sort by_rowid (map_to_list t).

(** [SELECT * FROM t WHERE p] *)
Definition select {A} (p : Z -> A -> bool) (t : gmap Z A) : list (Z * A) :=
  filter (fun kv => Is_true (p kv.1 kv.2)) (scan t).

(** The rowid an [AUTOINCREMENT] insert picks: one more than the largest
    of the recorded sequence and the rowids in the table. *)
Definition max_rowid {A} (t : gmap Z A) : Z :=
  foldr (fun kv m => Z.max kv.1 m) 0 (map_to_list t).

Definition next_rowid {A} (seq : Z) (t : gmap Z A) : Z :=
  Z.max seq (max_rowid t) + 1.

(** [INSERT INTO users (name, email, password) VALUES (?, ?, ?)].
    The [NOT NULL] columns are checked before the [UNIQUE] index. *)
Definition insert_user (name email password : option string) (ts : string)
    (d : db) : sql_error + Z * db :=
  match name, email, password with
  | None, _, _ => inl (NotNullFailed "users.name")
  | Some _, None, _ => inl (NotNullFailed "users.email")
  | Some _, Some _, None => inl (NotNullFailed "users.password")
  | Some n, Some e, Some p =>
      match select (fun _ u => String.eqb (u_email u) e) (users d) with
      | _ :: _ => inl (UniqueFailed "users.email")
      | [] =>
          let id := next_rowid (users_seq d) (users d) in
          inr (id,
               {| users := <[id := {| u_name := n; u_email := e;
                                      u_password := p; u_createdAt := ts |}]>
                             (users d);
                  users_seq := id;
                  recipes := recipes d;
                  recipes_seq := recipes_seq d |})
      end
  end.

(** [SELECT * FROM users WHERE email = ?], first row. *)
Definition get_user_by_email (email : option string) (d : db)
    : option (Z * user_row) :=
  match email with
  | None => None
  | Some e => head (select (fun _ u => String.eqb (u_email u) e) (users d))
  end.

(** [SELECT * FROM recipes WHERE userId = ?] *)
Definition all_recipes_of (userId : Z) (d : db) : list (Z * recipe_row) :=
  select (fun _ r => r_userId r =? userId) (recipes d).

(** The [WHERE id = ? AND userId = ?] clause, [id] bound as the text of
    the route parameter. *)
Definition id_and_owner `{Libs} (id : string) (userId : Z)
    (k : Z) (r : recipe_row) : bool :=
  match rowid_of_text id with
  | Some i => (k =? i) && (r_userId r =? userId)
  | None => false
  end.

(** [SELECT * FROM recipes WHERE id = ? AND userId = ?], first row. *)
Definition get_recipe `{Libs} (id : string) (userId : Z) (d : db)
    : option (Z * recipe_row) :=
  head (select (id_and_owner id userId) (recipes d)).

(** [INSERT INTO recipes (title, description, ingredients, instructions,
    imageUrl, categoryId, userId) VALUES (?, ?, ?, ?, ?, ?, ?)] *)
Definition insert_recipe (title description ingredients instructions : option string)
    (imageUrl : option string) (categoryId : option Z) (userId : Z)
    (ts : string) (d : db) : sql_error + Z * db :=
  match title, description, ingredients, instructions with
  | None, _, _, _ => inl (NotNullFailed "recipes.title")
  | Some _, None, _, _ => inl (NotNullFailed "recipes.description")
  | Some _, Some _, None, _ => inl (NotNullFailed "recipes.ingredients")
  | Some _, Some _, Some _, None => inl (NotNullFailed "recipes.instructions")
  | Some t, Some de, Some ing, Some ins =>
      let id := next_rowid (recipes_seq d) (recipes d) in
      inr (id,
           {| users := users d;
              users_seq := users_seq d;
              recipes := <[id := {| r_title := t; r_description := de;
                                    r_ingredients := ing; r_instructions := ins;
                                    r_imageUrl := imageUrl;
                                    r_categoryId := categoryId;
                                    r_userId := userId;
                                    r_createdAt := ts |}]> (recipes d);
              recipes_seq := id |})
  end.

(** [UPDATE recipes SET title = ?, description = ?, ingredients = ?,
    instructions = ?, categoryId = ?, imageUrl = ? WHERE id = ? AND
    userId = ?].  The constraints are checked on the rows the statement
    rewrites: with no matching row nothing is checked and nothing
    changes; a violated constraint aborts the statement and leaves the
    table as it was.  The result is [this.changes]. *)
Definition update_recipe `{Libs} (title description ingredients instructions : option string)
    (categoryId : option Z) (imageUrl : option string)
    (id : string) (userId : Z) (d : db) : sql_error + nat * db :=
  match select (id_and_owner id userId) (recipes d) with
  | [] => inr (0%nat, d)
  | (_ :: _) as hits =>
      match title, description, ingredients, instructions with
      | None, _, _, _ => inl (NotNullFailed "recipes.title")
      | Some _, None, _, _ => inl (NotNullFailed "recipes.description")
      | Some _, Some _, None, _ => inl (NotNullFailed "recipes.ingredients")
      | Some _, Some _, Some _, None => inl (NotNullFailed "recipes.instructions")
      | Some t, Some de, Some ing, Some ins =>
          let set (r : recipe_row) :=
            {| r_title := t; r_description := de;
               r_ingredients := ing; r_instructions := ins;
               r_imageUrl := imageUrl; r_categoryId := categoryId;
               r_userId := r_userId r; r_createdAt := r_createdAt r |} in
          inr (length hits,
               {| users := users d;
                  users_seq := users_seq d;
                  recipes := map_imap (fun k r =>
                               Some (if id_and_owner id userId k r then set r else r))
                               (recipes d);
                  recipes_seq := recipes_seq d |})
      end
  end.

End Store.
Import Store.

(** ** Handlers: the database as state, the statements sent as a log *)

Inductive statement : Type :=
  | InsertUser
  | SelectUserByEmail
  | SelectRecipesByUser
  | SelectRecipeById
  | InsertRecipe
  | UpdateRecipe.

Definition M (A : Type) : Type := db -> A * db * list statement.

#[global] Instance M_ret : MRet M := fun A a d => (a, d, []).

#[global] Instance M_bind : MBind M := fun A B k m d =>
  let '(a, d1, l1) := m d in
  let '(b, d2, l2) := k a d1 in
  (b, d2, l1 ++ l2).

(** [db.get] and [db.all]: the statement reads, the database stays. *)
Definition query {A} (s : statement) (q : db -> A) : M A :=
  fun d => (q d, d, [s]).

(** [db.run]: the callback receives [err], or [this] with the statement's
    result; a failed statement leaves the database as it was. *)
Definition run {A} (s : statement) (u : db -> sql_error + A * db)
    : M (sql_error + A) :=
  fun d =>
    match u d with
    | inl err => (inl err, d, [s])
    | inr (a, d') => (inr a, d', [s])
    end.

(** What the client receives.  [NoReply] is a handler that throws before
    it responds. *)
Inductive reply : Type :=
  | Reply (status : Z) (payload : json)
  | NoReply.

Definition status_of (r : reply) : option Z :=
  match r with Reply s _ => Some s | NoReply => None end.

Definition payload_of (r : reply) : option json :=
  match r with Reply _ j => Some j | NoReply => None end.

Definition error_body (msg : string) : json := obj [ ("error", Some (JStr msg)) ].

Definition errors_body (errors : list verror) : json :=
  obj [ ("errors", Some (JArr (map verror_json errors))) ].

(** [SELECT *] on [recipes], as the driver hands a row to the callback. *)
Definition recipe_json (row : Z * recipe_row) : json :=
  let '(id, r) := row in
  JObj [ ("id", JNum id);
         ("title", JStr (r_title r));
         ("description", JStr (r_description r));
         ("ingredients", JStr (r_ingredients r));
         ("instructions", JStr (r_instructions r));
         ("imageUrl", from_option JStr JNull (r_imageUrl r));
         ("categoryId", from_option JNum JNull (r_categoryId r));
         ("userId", JNum (r_userId r));
         ("createdAt", JStr (r_createdAt r)) ].

(** The part of a request every route reads: the [Authorization] header
    and the clock at the time the request is served. *)
Record request : Type := {
  authorization : option string;
  now : Z
}.

Record signup_body : Type := {
  s_name : field string;
  s_email : field string;
  s_password : field string
}.

Record login_body : Type := {
  l_email : field string;
  l_password : field string
}.

Record recipe_body : Type := {
  b_title : field string;
  b_description : field string;
  b_ingredients : field string;
  b_instructions : field string;
  b_categoryId : field Z;
  b_imageUrl : field string
}.

Section Server.
Context `{Libs}.

Definition secret : string := "your_jwt_secret_key".

Definition generateToken (userId : Z) (clock : Z) : string :=
  jwt_sign userId secret 3600 clock.

(** [req.header("Authorization")?.replace("Bearer ", "")] *)
Definition bearer (req : request) : option string :=
  Js.remove_first "Bearer " <$> authorization req.

Definition authenticateToken (req : request) (next : Z -> M reply) : M reply :=
  match bearer req with
  | None => mret (Reply 401 (error_body "Access denied. No token provided."))
  | Some token =>
      if negb (Js.truthy token)
      then mret (Reply 401 (error_body "Access denied. No token provided."))
      else
        match jwt_verify token secret (now req) with
        | None => mret (Reply 400 (error_body "Invalid token."))
        | Some id => next id
        end
  end.

(** [POST /signup] *)
Definition signup_validation (b : signup_body) : list verror :=
  chain "name" (s_name b) notEmpty "Name is required"
  ++ chain "email" (s_email b) (fun v => isEmail (toString v)) "Invalid email"
  ++ chain "password" (s_password b) (isLength_min 6)
       "Password must be at least 6 characters long".

Definition post_signup (req : request) (salt : string) (b : signup_body) : M reply :=
  match signup_validation b with
  | (_ :: _) as errors => mret (Reply 400 (errors_body errors))
  | [] =>
      match s_password b with
      | Absent | Null => mret NoReply
      | Val password =>
          let hashedPassword := bcrypt_hash password 10 salt in
          r ← run InsertUser
                (insert_user (bind_param (s_name b)) (bind_param (s_email b))
                             (Some hashedPassword) (current_timestamp (now req)));
          match r with
          | inl err =>
              if Js.includes "UNIQUE constraint failed" (message err)
              then mret (Reply 400 (error_body "Email already exists"))
              else mret (Reply 500 (error_body "Failed to create user"))
          | inr lastID =>
              let token := jwt_sign lastID secret 3600 (now req) in
              mret (Reply 201 (obj [ ("id", Some (JNum lastID));
                                     ("name", json_text (s_name b));
                                     ("email", json_text (s_email b));
                                     ("token", Some (JStr token)) ]))
          end
      end
  end.

(** [POST /login] *)
Definition login_validation (b : login_body) : list verror :=
  chain "email" (l_email b) (fun v => isEmail (toString v)) "Invalid email"
  ++ chain "password" (l_password b) notEmpty "Password is required".

Definition post_login (req : request) (b : login_body) : M reply :=
  match login_validation b with
  | (_ :: _) as errors => mret (Reply 400 (errors_body errors))
  | [] =>
      user ← query SelectUserByEmail (get_user_by_email (bind_param (l_email b)));
      match user with
      | None => mret (Reply 404 (error_body "User not found"))
      | Some (id, u) =>
          match l_password b with
          | Absent | Null => mret NoReply
          | Val password =>
              if negb (bcrypt_compare password (u_password u))
              then mret (Reply 401 (error_body "Invalid credentials"))
              else mret (Reply 200 (obj [ ("token", Some (JStr (generateToken id (now req)))) ]))
          end
      end
  end.

(** [GET /recipes] *)
Definition get_recipes (req : request) : M reply :=
  authenticateToken req (fun userId =>
    rows ← query SelectRecipesByUser (all_recipes_of userId);
    mret (Reply 200 (JArr (map recipe_json rows)))).

(** [GET /recipes/:id] *)
Definition get_recipe_by_id (req : request) (id : string) : M reply :=
  authenticateToken req (fun userId =>
    recipe ← query SelectRecipeById (get_recipe id userId);
    match recipe with
    | None => mret (Reply 404 (error_body "Recipe not found"))
    | Some row => mret (Reply 200 (recipe_json row))
    end).

(** [POST /recipes] *)
Definition recipe_validation (b : recipe_body) : list verror :=
  chain "title" (b_title b) notEmpty "Title is required"
  ++ chain "description" (b_description b) notEmpty "Description is required"
  ++ chain "ingredients" (b_ingredients b) notEmpty "Ingredients are required"
  ++ chain "instructions" (b_instructions b) notEmpty "Instructions are required".

Definition post_recipes (req : request) (b : recipe_body) : M reply :=
  authenticateToken req (fun userId =>
    match recipe_validation b with
    | (_ :: _) as errors => mret (Reply 400 (errors_body errors))
    | [] =>
        r ← run InsertRecipe
              (insert_recipe (bind_param (b_title b)) (bind_param (b_description b))
                             (bind_param (b_ingredients b)) (bind_param (b_instructions b))
                             (bind_param (b_imageUrl b)) (bind_param (b_categoryId b))
                             userId (current_timestamp (now req)));
        match r with
        | inl err => mret (Reply 500 (error_body "Failed to add recipe"))
        | inr lastID =>
            mret (Reply 201 (obj [ ("id", Some (JNum lastID));
                                   ("title", json_text (b_title b));
                                   ("description", json_text (b_description b));
                                   ("ingredients", json_text (b_ingredients b));
                                   ("instructions", json_text (b_instructions b));
                                   ("imageUrl", json_text (b_imageUrl b));
                                   ("categoryId", json_int (b_categoryId b)) ]))
        end
    end).

(** [PUT /recipes/:id] *)
Definition put_recipe (req : request) (id : string) (b : recipe_body) : M reply :=
  authenticateToken req (fun userId =>
    r ← run UpdateRecipe
          (update_recipe (bind_param (b_title b)) (bind_param (b_description b))
                         (bind_param (b_ingredients b)) (bind_param (b_instructions b))
                         (bind_param (b_categoryId b)) (bind_param (b_imageUrl b))
                         id userId);
    match r with
    | inl err => mret (Reply 500 (error_body "Failed to update recipe"))
    | inr changes =>
        if Nat.eqb changes 0
        then mret (Reply 404 (error_body "Recipe not found or unauthorized"))
        else mret (Reply 200 (obj [ ("message", Some (JStr "Recipe updated successfully")) ]))
    end).

(** The routes of the application that reach a handler of this file. *)
Inductive call : Type :=
  | PostSignup (salt : string) (b : signup_body)
  | PostLogin (b : login_body)
  | GetRecipes
  | GetRecipeById (id : string)
  | PostRecipes (b : recipe_body)
  | PutRecipe (id : string) (b : recipe_body).

Definition serve (req : request) (c : call) : M reply :=
  match c with
  | PostSignup salt b => post_signup req salt b
  | PostLogin b => post_login req b
  | GetRecipes => get_recipes req
  | GetRecipeById id => get_recipe_by_id req id
  | PostRecipes b => post_recipes req b
  | PutRecipe id b => put_recipe req id b
  end.

(** The database after a sequence of requests, served one after the
    other. *)
Fixpoint serve_all (calls : list (request * call)) (d : db) : db :=
  match calls with
  | [] => d
  | (req, c) :: rest => serve_all rest (serve req c d).1.2
  end.

End Server.

(** ** A concrete set of collaborators, to run the handlers *)

Module Sample.

Definition digit (c : ascii) : option Z :=
  let n := Z.of_N (N_of_ascii c) in
  if (48 <=? n) && (n <=? 57) then Some (n - 48) else None.

Fixpoint decimal (acc : Z) (s : string) : option Z :=
  match s with
  | EmptyString => Some acc
  | String c s' =>
      match digit c with
      | Some n => decimal (10 * acc + n) s'
      | None => None
      end
  end.

Definition rowid (s : string) : option Z :=
  match s with
  | EmptyString => None
  | String _ _ => decimal 0 s
  end.

(** Tokens are the user id in unary, behind a tag; nothing expires. *)
Definition sign (id : Z) (key : string) (ttl clock : Z) : string :=
  String.append "jwt:" (String.concat "" (repeat "i" (Z.to_nat id))).

Fixpoint unary (s : string) : option Z :=
  match s with
  | EmptyString => Some 0
  | String "i" s' => Z.succ <$> unary s'
  | String _ _ => None
  end.

Definition verify (token key : string) (clock : Z) : option Z :=
  match Js.strip_prefix "jwt:" token with
  | Some rest => unary rest
  | None => None
  end.

(** The characters of a text held as UTF-8: the bytes that are not
    continuation bytes (10xxxxxx). *)
Fixpoint code_points (s : string) : nat :=
  match s with
  | EmptyString => 0%nat
  | String c s' =>
      let n := Z.of_N (N_of_ascii c) in
      if (128 <=? n) && (n <=? 191) then code_points s' else S (code_points s')
  end.

Definition libs : Libs := {|
  isEmail := Js.includes "@";
  characters := code_points;
  bcrypt_hash := fun data rounds salt =>
    String.append "$2b$" (String.append (String.substring 0 4 salt) data);
  bcrypt_compare := fun data encrypted =>
    match Js.strip_prefix "$2b$" encrypted with
    | Some rest =>
        String.eqb (String.substring 4 (String.length rest - 4) rest) data
    | None => false
    end;
  jwt_sign := sign;
  jwt_verify := verify;
  rowid_of_text := rowid;
  current_timestamp := fun _ => "2024-01-01 00:00:00"
|}.

Definition as_user (token : string) : request :=
  {| authorization := Some (String.append "Bearer " token); now := 0 |}.

Definition anonymous : request := {| authorization := None; now := 0 |}.

(** User 1 and user 2, each with a token of their own. *)
Definition ann_req : request := as_user "jwt:i".
Definition bob_req : request := as_user "jwt:ii".

Definition soup : recipe_body :=
  {| b_title := Val "Soup"; b_description := Val "hot";
     b_ingredients := Val "water"; b_instructions := Val "boil";
     b_categoryId := Absent; b_imageUrl := Absent |}.

Definition soup_row (owner : Z) : recipe_row :=
  {| r_title := "Soup"; r_description := "hot";
     r_ingredients := "water"; r_instructions := "boil";
     r_imageUrl := None; r_categoryId := None;
     r_userId := owner; r_createdAt := "2024-01-01 00:00:00" |}.

Definition ann : user_row :=
  {| u_name := "A"; u_email := "a@x.com";
     u_password := "$2b$saltsecret1"; u_createdAt := "2024-01-01 00:00:00" |}.

Definition no_title : recipe_body :=
  {| b_title := Null; b_description := Val "cold";
     b_ingredients := Val "ice"; b_instructions := Val "wait";
     b_categoryId := Absent; b_imageUrl := Absent |}.

Definition blank_title : recipe_body :=
  {| b_title := Val ""; b_description := Val "cold";
     b_ingredients := Val "ice"; b_instructions := Val "wait";
     b_categoryId := Val 3; b_imageUrl := Null |}.

Definition ann_login : login_body :=
  {| l_email := Val "a@x.com"; l_password := Val "secret1" |}.

Definition ann_typo : login_body :=
  {| l_email := Val "a@x.com"; l_password := Val "secret2" |}.

Definition nobody_login : login_body :=
  {| l_email := Val "nobody"; l_password := Val "secret1" |}.

Definition ann_signup : signup_body :=
  {| s_name := Val "A"; s_email := Val "a@x.com"; s_password := Val "secret1" |}.

(** Another person signing up with the email of user 1. *)
Definition second_signup : signup_body :=
  {| s_name := Val "B"; s_email := Val "a@x.com"; s_password := Val "secret2" |}.

(** The same email again, with an empty name and a short password. *)
Definition sloppy_signup : signup_body :=
  {| s_name := Val ""; s_email := Val "a@x.com"; s_password := Val "abc" |}.

(** One user (id 1) who owns one recipe (id 1). *)
Definition kitchen : db :=
  {| users := {[ 1 := ann ]}; users_seq := 1;
     recipes := {[ 1 := soup_row 1 ]}; recipes_seq := 1 |}.

End Sample.

(** ** Vocabulary of the specification *)

Section Vocabulary.
Context `{Libs}.

(** The request carries [token] as its bearer credential. *)
Definition presents (req : request) (token : string) : Prop :=
  bearer req = Some token ∧ token ≠ "".

(** The request carries no credential: no [Authorization] header, or
    nothing left of it once ["Bearer "] is removed. *)
Definition no_token (req : request) : Prop :=
  bearer req = None ∨ bearer req = Some "".

(** The request carries a token that verifies and binds [userId]. *)
Definition authenticated (req : request) (userId : Z) : Prop :=
  ∃ token, presents req token ∧ jwt_verify token secret (now req) = Some userId.

(** The two ways the gate turns a request down, with the answer the
    specification gives each: [MissingCredentialError] is status 401,
    [InvalidCredentialError] is status 400. *)
Inductive rejected (req : request) : reply -> Prop :=
  | rejected_missing :
      no_token req ->
      rejected req (Reply 401 (error_body "Access denied. No token provided."))
  | rejected_invalid token :
      presents req token ->
      jwt_verify token secret (now req) = None ->
      rejected req (Reply 400 (error_body "Invalid token.")).

(** The four recipe operations on one request. *)
Definition recipe_operations (req : request) (id : string) (b : recipe_body)
    : list (M reply) :=
  [ get_recipes req; get_recipe_by_id req id; post_recipes req b; put_recipe req id b ].

(** A body key that is left out or set to [null]. *)
Definition missing {A} (v : field A) : Prop := v = Absent ∨ v = Null.

(** A text key that is empty for [notEmpty]: left out, [null] or [""]. *)
Definition empty (v : field string) : Prop := toString v = "".

(** No row with the given id belongs to the user (the id may denote no
    rowid, no row, or another user's row). *)
Definition unmatched (id : string) (userId : Z) (d : db) : Prop :=
  ∀ i r, rowid_of_text id = Some i → recipes d !! i = Some r → r_userId r ≠ userId.

(** The row an accepted [PUT] writes over [r]. *)
Definition overwritten (r : recipe_row) (title description ingredients instructions : string)
    (b : recipe_body) : recipe_row :=
  {| r_title := title; r_description := description;
     r_ingredients := ingredients; r_instructions := instructions;
     r_imageUrl := bind_param (b_imageUrl b);
     r_categoryId := bind_param (b_categoryId b);
     r_userId := r_userId r; r_createdAt := r_createdAt r |}.

(** [(id, u)] is the stored user with this email, and the only one, as
    the [UNIQUE] index on [users.email] has it. *)
Definition sole_user (d : db) (email : string) (id : Z) (u : user_row) : Prop :=
  users d !! id = Some u ∧ u_email u = email ∧
  ∀ id' u', users d !! id' = Some u' → u_email u' = email → id' = id.

(** No stored user has this email. *)
Definition unknown_email (d : db) (email : string) : Prop :=
  ∀ id u, users d !! id = Some u → u_email u ≠ email.

(** The invariant the [UNIQUE] index maintains. *)
Definition unique_emails (d : db) : Prop :=
  ∀ id1 id2 u1 u2,
    users d !! id1 = Some u1 → users d !! id2 = Some u2 →
    u_email u1 = u_email u2 → id1 = id2.

(** A signup body that passes the three validators. *)
Definition valid_signup (b : signup_body) (name email password : string) : Prop :=
  s_name b = Val name ∧ name ≠ "" ∧
  s_email b = Val email ∧ isEmail email = true ∧
  s_password b = Val password ∧ (6 ≤ characters password)%nat.

(** A login body that passes the two validators. *)
Definition valid_login (b : login_body) (email password : string) : Prop :=
  l_email b = Val email ∧ isEmail email = true ∧
  l_password b = Val password ∧ password ≠ "".

(** A recipe body that passes the four validators of [POST /recipes]. *)
Definition valid_recipe (b : recipe_body)
    (title description ingredients instructions : string) : Prop :=
  (b_title b = Val title ∧ title ≠ "") ∧
  (b_description b = Val description ∧ description ≠ "") ∧
  (b_ingredients b = Val ingredients ∧ ingredients ≠ "") ∧
  (b_instructions b = Val instructions ∧ instructions ≠ "").

(** The entry that a failed chain leaves in the error list. *)
Definition entry (path : string) (value : field string) (msg : string) : verror :=
  {| ve_value := value; ve_msg := msg; ve_path := path |}.

(** The signup constraints a body violates, as the entries reported. *)
Definition signup_violation (b : signup_body) (e : verror) : Prop :=
  (e = entry "name" (s_name b) "Name is required" ∧ empty (s_name b)) ∨
  (e = entry "email" (s_email b) "Invalid email" ∧
   isEmail (toString (s_email b)) = false) ∨
  (e = entry "password" (s_password b) "Password must be at least 6 characters long" ∧
   (characters (toString (s_password b)) < 6)%nat).

(** The required recipe fields a body leaves empty, as the entries
    reported. *)
Definition recipe_violation (b : recipe_body) (e : verror) : Prop :=
  (e = entry "title" (b_title b) "Title is required" ∧ empty (b_title b)) ∨
  (e = entry "description" (b_description b) "Description is required" ∧
   empty (b_description b)) ∨
  (e = entry "ingredients" (b_ingredients b) "Ingredients are required" ∧
   empty (b_ingredients b)) ∨
  (e = entry "instructions" (b_instructions b) "Instructions are required" ∧
   empty (b_instructions b)).

(** The row that [POST /recipes] stores for a valid body. *)
Definition created (b : recipe_body) (title description ingredients instructions : string)
    (userId : Z) (ts : string) : recipe_row :=
  {| r_title := title; r_description := description;
     r_ingredients := ingredients; r_instructions := instructions;
     r_imageUrl := bind_param (b_imageUrl b);
     r_categoryId := bind_param (b_categoryId b);
     r_userId := userId; r_createdAt := ts |}.

(** The object that [POST /recipes] answers with for a valid body. *)
Definition echoed (b : recipe_body) (title description ingredients instructions : string)
    (id : Z) : json :=
  obj [ ("id", Some (JNum id));
        ("title", Some (JStr title));
        ("description", Some (JStr description));
        ("ingredients", Some (JStr ingredients));
        ("instructions", Some (JStr instructions));
        ("imageUrl", json_text (b_imageUrl b));
        ("categoryId", json_int (b_categoryId b)) ].

End Vocabulary.

(** ** Vocabulary of the further properties *)

Section Conduct.
Context `{Libs}.

(** A reply that reports a failure: a status of 400 or more, or no reply
    at all. *)
Definition failed (r : reply) : Prop :=
  match r with
  | Reply s _ => 400 ≤ s
  | NoReply => True
  end.

(** The rowids of a table are 1, 2, ..., [seq]. *)
Definition dense {A} (t : gmap Z A) (seq : Z) : Prop :=
  0 ≤ seq ∧ ∀ i, is_Some (t !! i) ↔ 1 ≤ i ≤ seq.

Definition dense_ids (d : db) : Prop :=
  dense (users d) (users_seq d) ∧ dense (recipes d) (recipes_seq d).

(** The login body made of an email and a password. *)
Definition login_of (email password : string) : login_body :=
  {| l_email := Val email; l_password := Val password |}.

(** A request with the given [Authorization] header. *)
Definition with_header (h : string) (clock : Z) : request :=
  {| authorization := Some h; now := clock |}.

(** The object [GET /recipes/:id] answers with for the row [r] stored
    under [i] once a [PUT] has overwritten it with the given texts and the
    optional keys of [b]. *)
Definition updated_json (i : Z) (r : recipe_row)
    (title description ingredients instructions : string) (b : recipe_body) : json :=
  JObj [ ("id", JNum i);
         ("title", JStr title);
         ("description", JStr description);
         ("ingredients", JStr ingredients);
         ("instructions", JStr instructions);
         ("imageUrl", from_option JStr JNull (bind_param (b_imageUrl b)));
         ("categoryId", from_option JNum JNull (bind_param (b_categoryId b)));
         ("userId", JNum (r_userId r));
         ("createdAt", JStr (r_createdAt r)) ].

End Conduct.

(** ** Facts about the store *)

Section StoreFacts.
Context {A : Type}.
Implicit Types (t : gmap Z A) (p : Z -> A -> bool).

Lemma elem_of_scan t k v : (k, v) ∈ scan t ↔ t !! k = Some v.
Proof.
  unfold scan. rewrite merge_sort_Permutation. apply elem_of_map_to_list.
Qed.

Lemma NoDup_scan t : NoDup (scan t).
Proof.
  unfold scan. rewrite merge_sort_Permutation. apply NoDup_map_to_list.
Qed.

Lemma elem_of_select p t k v :
  (k, v) ∈ select p t ↔ t !! k = Some v ∧ p k v = true.
Proof.
  unfold select. rewrite list_elem_of_filter, elem_of_scan. simpl.
  rewrite Is_true_true. tauto.
Qed.

Lemma NoDup_select p t : NoDup (select p t).
Proof. unfold select. apply NoDup_filter, NoDup_scan. Qed.

Lemma select_nil p t :
  select p t = [] ↔ ∀ k v, t !! k = Some v → p k v = false.
Proof.
  split.
  - intros E k v Hk. destruct (p k v) eqn:Hp; [|done].
    assert ((k, v) ∈ select p t) as Hin by (apply elem_of_select; done).
    rewrite E in Hin. by apply elem_of_nil in Hin.
  - intros Hall. destruct (select p t) as [|[k v] l] eqn:E; [done|].
    assert ((k, v) ∈ select p t) as Hin by (rewrite E; left).
    apply elem_of_select in Hin as [Hk Hp]. rewrite (Hall _ _ Hk) in Hp. done.
Qed.

(** A clause that fixes the rowid selects at most the row stored there. *)
Lemma select_rowid (q : A -> bool) t i :
  select (fun k v => (k =? i) && q v) t =
    match t !! i with
    | Some v => if q v then [(i, v)] else []
    | None => []
    end.
Proof.
  pose proof (NoDup_select (fun k v => (k =? i) && q v) t) as ND.
  assert (∀ x, x ∈ select (fun k v => (k =? i) && q v) t →
               t !! i = Some x.2 ∧ q x.2 = true ∧ x.1 = i) as Hall.
  { intros [k v] [Hk Hp]%elem_of_select. apply andb_true_iff in Hp as [Hki Hq].
    apply Z.eqb_eq in Hki. subst k. done. }
  destruct (select _ t) as [|[k v] l] eqn:E.
  - pose proof (proj1 (select_nil _ _) E) as Hnone.
    destruct (t !! i) as [v|] eqn:Hi; [|done].
    specialize (Hnone _ _ Hi). simpl in Hnone.
    rewrite Z.eqb_refl in Hnone. simpl in Hnone. by rewrite Hnone.
  - destruct (Hall (k, v)) as (Hi & Hq & Hk); [left|]. simpl in *. subst k.
    rewrite Hi, Hq. f_equal.
    destruct l as [|[k' v'] l]; [done|].
    destruct (Hall (k', v')) as (Hi' & _ & Hk'); [right; left|]. simpl in *.
    subst k'. rewrite Hi in Hi'. injection Hi' as <-.
    apply NoDup_cons in ND as [Hnin _]. exfalso. apply Hnin. left.
Qed.

Lemma max_rowid_ge t k v : t !! k = Some v → k ≤ max_rowid t.
Proof.
  intros Hk. apply elem_of_map_to_list in Hk. unfold max_rowid.
  induction (map_to_list t) as [|[k' v'] l IH]; [by apply elem_of_nil in Hk|].
  simpl. apply elem_of_cons in Hk as [E|Hin].
  - injection E as -> ->. lia.
  - specialize (IH Hin). lia.
Qed.

Lemma next_rowid_fresh seq t : t !! next_rowid seq t = None.
Proof.
  destruct (t !! next_rowid seq t) as [v|] eqn:E; [|done].
  apply max_rowid_ge in E. unfold next_rowid in E. lia.
Qed.

End StoreFacts.

Section RecipeStatements.
Context `{Libs}.
Implicit Types (t : gmap Z recipe_row) (d : db).

(** The rows that [WHERE id = ? AND userId = ?] selects. *)
Lemma select_id_and_owner id userId t :
  select (id_and_owner id userId) t =
    match rowid_of_text id with
    | Some i =>
        match t !! i with
        | Some r => if r_userId r =? userId then [(i, r)] else []
        | None => []
        end
    | None => []
    end.
Proof.
  unfold id_and_owner. destruct (rowid_of_text id) as [i|].
  - apply (select_rowid (fun r => r_userId r =? userId)).
  - by apply select_nil.
Qed.

Lemma select_not_owned id userId t :
  (∀ i r, rowid_of_text id = Some i → t !! i = Some r → r_userId r ≠ userId) →
  select (id_and_owner id userId) t = [].
Proof.
  intros Hno. rewrite select_id_and_owner.
  destruct (rowid_of_text id) as [i|]; [|done].
  destruct (t !! i) as [r|] eqn:Hi; [|done].
  destruct (r_userId r =? userId) eqn:E; [|done].
  apply Z.eqb_eq in E. by destruct (Hno i r).
Qed.

Lemma select_owned id userId t i r :
  rowid_of_text id = Some i → t !! i = Some r → r_userId r = userId →
  select (id_and_owner id userId) t = [(i, r)].
Proof.
  intros Hid Hi Ho. rewrite select_id_and_owner, Hid, Hi.
  by rewrite (proj2 (Z.eqb_eq _ _) Ho).
Qed.

(** The table after an [UPDATE] that matched the row at [i]. *)
Lemma imap_id_and_owner id userId t i r (set : recipe_row -> recipe_row) :
  rowid_of_text id = Some i → t !! i = Some r → r_userId r = userId →
  map_imap (fun k r => Some (if id_and_owner id userId k r then set r else r)) t
  = <[i := set r]> t.
Proof.
  intros Hid Hi Ho. apply map_eq. intros k.
  rewrite map_lookup_imap. unfold id_and_owner. rewrite Hid.
  destruct (decide (k = i)) as [->|Hne].
  - rewrite lookup_insert_eq, Hi. simpl.
    by rewrite Z.eqb_refl, (proj2 (Z.eqb_eq _ _) Ho).
  - rewrite lookup_insert_ne by done.
    destruct (t !! k) as [r'|]; [|done]. simpl.
    by rewrite (proj2 (Z.eqb_neq _ _) Hne).
Qed.

End RecipeStatements.

(** ** Validation chains *)

Section Validation.
Context `{Libs}.

Lemma notEmpty_false v : notEmpty v = false ↔ empty v.
Proof.
  unfold notEmpty, empty. rewrite negb_false_iff. apply String.eqb_eq.
Qed.

Lemma notEmpty_true v : notEmpty v = true ↔ ∃ s, v = Val s ∧ s ≠ "".
Proof.
  unfold notEmpty. rewrite negb_true_iff, String.eqb_neq. split.
  - destruct v as [| |s]; simpl; try done. intros Hs. by exists s.
  - by intros (s & -> & Hs).
Qed.

Lemma notEmpty_Val s : s ≠ "" → notEmpty (Val s) = true.
Proof. intros Hs. apply notEmpty_true. by exists s. Qed.

Lemma isLength_min_Val n s : (n ≤ characters s)%nat → isLength_min n (Val s) = true.
Proof. intros Hn. unfold isLength_min. simpl. by apply Nat.leb_le. Qed.

Lemma isLength_min_false n v :
  isLength_min n v = false ↔ (characters (toString v) < n)%nat.
Proof. unfold isLength_min. apply Nat.leb_gt. Qed.

Lemma chain_accepts path v validator msg :
  validator v = true → chain path v validator msg = [].
Proof. intros E. unfold chain. by rewrite E. Qed.

End Validation.

(** ** The users table *)

Section UserStatements.
Context {A : Type}.

Lemma select_sole (p : Z -> A -> bool) (t : gmap Z A) k v :
  t !! k = Some v → p k v = true →
  (∀ k' v', t !! k' = Some v' → p k' v' = true → k' = k) →
  select p t = [(k, v)].
Proof.
  intros Hk Hp Hsole.
  assert (∀ x, x ∈ select p t → x = (k, v)) as Hall.
  { intros [k' v'] [Hk' Hp']%elem_of_select.
    pose proof (Hsole _ _ Hk' Hp') as ->. congruence. }
  assert ((k, v) ∈ select p t) as Hin by (by apply elem_of_select).
  pose proof (NoDup_select p t) as ND.
  destruct (select p t) as [|x l]; [by apply elem_of_nil in Hin|].
  rewrite (Hall x) by left. f_equal.
  destruct l as [|y l]; [done|].
  rewrite (Hall x) in ND by left. rewrite (Hall y) in ND by (right; left).
  apply NoDup_cons in ND as [Hnin _]. exfalso. apply Hnin. left.
Qed.

End UserStatements.

Section UserRoutes.
Context `{Libs}.

Lemma signup_validation_valid b name email password :
  valid_signup b name email password → signup_validation b = [].
Proof.
  intros (Hn & Hne & He & Hemail & Hp & Hlen). unfold signup_validation.
  rewrite Hn, He, Hp.
  rewrite (chain_accepts "name") by by apply notEmpty_Val.
  rewrite (chain_accepts "email") by done.
  by rewrite (chain_accepts "password") by by apply isLength_min_Val.
Qed.

Lemma login_validation_valid b email password :
  valid_login b email password → login_validation b = [].
Proof.
  intros (He & Hemail & Hp & Hne). unfold login_validation. rewrite He, Hp.
  rewrite (chain_accepts "email") by done.
  by rewrite (chain_accepts "password") by by apply notEmpty_Val.
Qed.

Lemma select_email_unknown d email :
  unknown_email d email →
  select (fun _ u => String.eqb (u_email u) email) (users d) = [].
Proof.
  intros Hno. apply select_nil. intros k u Hk.
  apply String.eqb_neq. by apply (Hno k).
Qed.

Lemma select_email_known d email id u :
  users d !! id = Some u → u_email u = email →
  select (fun _ u => String.eqb (u_email u) email) (users d) ≠ [].
Proof.
  intros Hk He Hnil.
  pose proof (proj1 (select_nil _ _) Hnil _ _ Hk) as E. simpl in E.
  apply String.eqb_neq in E. done.
Qed.

Lemma select_email_sole d email id u :
  sole_user d email id u →
  select (fun _ u => String.eqb (u_email u) email) (users d) = [(id, u)].
Proof.
  intros (Hk & He & Hsole). apply select_sole; [done|by apply String.eqb_eq|].
  intros k' u' Hk' E. apply String.eqb_eq in E. by apply (Hsole k' u').
Qed.

Lemma post_signup_invalid req salt b d :
  signup_validation b ≠ [] →
  post_signup req salt b d
  = (Reply 400 (errors_body (signup_validation b)), d, []).
Proof.
  intros Hne. unfold post_signup.
  destruct (signup_validation b); [done|reflexivity].
Qed.

Lemma post_signup_taken req salt b d name email password id u :
  valid_signup b name email password →
  users d !! id = Some u → u_email u = email →
  post_signup req salt b d
  = (Reply 400 (error_body "Email already exists"), d, [InsertUser]).
Proof.
  intros Hv Hk He. unfold post_signup.
  rewrite (signup_validation_valid _ _ _ _ Hv).
  destruct Hv as (Hn & _ & Hem & _ & Hp & _). rewrite Hn, Hem, Hp. simpl.
  unfold mbind, M_bind, run, insert_user.
  pose proof (select_email_known _ _ _ _ Hk He) as Hsel.
  by destruct (select _ (users d)).
Qed.

Lemma post_signup_created req salt b d name email password :
  valid_signup b name email password → unknown_email d email →
  post_signup req salt b d
  = (Reply 201 (JObj [ ("id", JNum (next_rowid (users_seq d) (users d)));
                       ("name", JStr name);
                       ("email", JStr email);
                       ("token", JStr (jwt_sign (next_rowid (users_seq d) (users d))
                                         secret 3600 (now req))) ]),
     {| users := <[next_rowid (users_seq d) (users d) :=
                    {| u_name := name; u_email := email;
                       u_password := bcrypt_hash password 10 salt;
                       u_createdAt := current_timestamp (now req) |}]> (users d);
        users_seq := next_rowid (users_seq d) (users d);
        recipes := recipes d;
        recipes_seq := recipes_seq d |},
     [InsertUser]).
Proof.
  intros Hv Hno. unfold post_signup.
  rewrite (signup_validation_valid _ _ _ _ Hv).
  destruct Hv as (Hn & _ & Hem & _ & Hp & _). rewrite Hn, Hem, Hp. simpl.
  unfold mbind, M_bind, run, insert_user.
  by rewrite (select_email_unknown _ _ Hno).
Qed.

Lemma post_login_invalid req b d :
  login_validation b ≠ [] →
  post_login req b d = (Reply 400 (errors_body (login_validation b)), d, []).
Proof.
  intros Hne. unfold post_login.
  destruct (login_validation b); [done|reflexivity].
Qed.

Lemma post_login_unknown req b d email password :
  valid_login b email password → unknown_email d email →
  post_login req b d
  = (Reply 404 (error_body "User not found"), d, [SelectUserByEmail]).
Proof.
  intros Hv Hno. unfold post_login.
  rewrite (login_validation_valid _ _ _ Hv).
  destruct Hv as (He & _ & Hp & _). rewrite He. simpl.
  unfold mbind, M_bind, query, get_user_by_email.
  by rewrite (select_email_unknown _ _ Hno).
Qed.

Lemma post_login_known req b d email password id u :
  valid_login b email password → sole_user d email id u →
  post_login req b d
  = (if bcrypt_compare password (u_password u)
     then Reply 200 (JObj [("token", JStr (generateToken id (now req)))])
     else Reply 401 (error_body "Invalid credentials"),
     d, [SelectUserByEmail]).
Proof.
  intros Hv Hsole. unfold post_login.
  rewrite (login_validation_valid _ _ _ Hv).
  destruct Hv as (He & _ & Hp & _). rewrite He, Hp. simpl.
  unfold mbind, M_bind, query, get_user_by_email.
  rewrite (select_email_sole _ _ _ _ Hsole). simpl.
  by destruct (bcrypt_compare password (u_password u)).
Qed.

Lemma signup_validation_entries b e :
  e ∈ signup_validation b ↔ signup_violation b e.
Proof.
  unfold signup_violation, signup_validation, chain, entry.
  rewrite <- notEmpty_false, <- isLength_min_false.
  destruct (notEmpty (s_name b)), (isEmail (toString (s_email b))),
    (isLength_min 6 (s_password b)); simpl;
    rewrite ?elem_of_cons, ?elem_of_nil; intuition congruence.
Qed.

Lemma signup_validation_NoDup b : NoDup (ve_path <$> signup_validation b).
Proof.
  unfold signup_validation, chain.
  destruct (notEmpty (s_name b)), (isEmail (toString (s_email b))),
    (isLength_min 6 (s_password b)); simpl;
    repeat (apply NoDup_cons; split;
            [rewrite ?elem_of_cons, ?elem_of_nil; intuition discriminate|]);
    apply NoDup_nil_2.
Qed.

Lemma signup_validation_nonempty b e :
  signup_violation b e → signup_validation b ≠ [].
Proof.
  intros Hv%signup_validation_entries E. rewrite E in Hv.
  by apply elem_of_nil in Hv.
Qed.

End UserRoutes.

(** ** The authorization gate *)

Section Gate.
Context `{Libs}.

Lemma truthy_nonempty s : s ≠ "" → Js.truthy s = true.
Proof. by destruct s. Qed.

Lemma authenticateToken_next req userId next :
  authenticated req userId → authenticateToken req next = next userId.
Proof.
  intros (token & [Hb Hne] & Hv). unfold authenticateToken.
  by rewrite Hb, (truthy_nonempty _ Hne), Hv.
Qed.

Lemma authenticateToken_rejected req r next d :
  rejected req r → authenticateToken req next d = (r, d, []).
Proof.
  unfold authenticateToken.
  intros [[Hb|Hb] | token [Hb Hne] Hv]; rewrite Hb; simpl; try done.
  by rewrite (truthy_nonempty _ Hne), Hv.
Qed.

(** Every request is either turned down or authenticated. *)
Lemma gate_cases req : (∃ r, rejected req r) ∨ (∃ userId, authenticated req userId).
Proof.
  destruct (bearer req) as [token|] eqn:Hb.
  - destruct (decide (token = "")) as [->|Hne].
    + left. eexists. apply rejected_missing. by right.
    + destruct (jwt_verify token secret (now req)) as [userId|] eqn:Hv.
      * right. by exists userId, token.
      * left. eexists. by apply (rejected_invalid _ token).
  - left. eexists. apply rejected_missing. by left.
Qed.

Lemma rejected_not_authenticated req r userId :
  rejected req r → authenticated req userId → False.
Proof.
  intros Hr (token & [Hb Hne] & Hv).
  destruct Hr as [[Hb'|Hb'] | token' [Hb' _] Hv']; congruence.
Qed.

End Gate.

Section RecipeRoutes.
Context `{Libs}.

Lemma get_recipe_by_id_unmatched req userId id d :
  authenticated req userId → unmatched id userId d →
  get_recipe_by_id req id d
  = (Reply 404 (error_body "Recipe not found"), d, [SelectRecipeById]).
Proof.
  intros Hauth Hno. unfold get_recipe_by_id.
  rewrite (authenticateToken_next _ _ _ Hauth).
  unfold mbind, M_bind, query, get_recipe.
  by rewrite (select_not_owned _ _ _ Hno).
Qed.

Lemma get_recipe_by_id_owned req userId id i r d :
  authenticated req userId →
  rowid_of_text id = Some i → recipes d !! i = Some r → r_userId r = userId →
  get_recipe_by_id req id d
  = (Reply 200 (recipe_json (i, r)), d, [SelectRecipeById]).
Proof.
  intros Hauth Hid Hi Ho. unfold get_recipe_by_id.
  rewrite (authenticateToken_next _ _ _ Hauth).
  unfold mbind, M_bind, query, get_recipe.
  by rewrite (select_owned _ _ _ _ _ Hid Hi Ho).
Qed.

Lemma put_recipe_unmatched req userId id b d :
  authenticated req userId → unmatched id userId d →
  put_recipe req id b d
  = (Reply 404 (error_body "Recipe not found or unauthorized"), d, [UpdateRecipe]).
Proof.
  intros Hauth Hno. unfold put_recipe.
  rewrite (authenticateToken_next _ _ _ Hauth).
  unfold mbind, M_bind, run, update_recipe.
  by rewrite (select_not_owned _ _ _ Hno).
Qed.

Lemma put_recipe_owned req userId id i r b d title description ingredients instructions :
  authenticated req userId →
  rowid_of_text id = Some i → recipes d !! i = Some r → r_userId r = userId →
  b_title b = Val title → b_description b = Val description →
  b_ingredients b = Val ingredients → b_instructions b = Val instructions →
  put_recipe req id b d
  = (Reply 200 (JObj [("message", JStr "Recipe updated successfully")]),
     {| users := users d; users_seq := users_seq d;
        recipes := <[i := overwritten r title description ingredients instructions b]>
                     (recipes d);
        recipes_seq := recipes_seq d |},
     [UpdateRecipe]).
Proof.
  intros Hauth Hid Hi Ho Ht Hde Hing Hins. unfold put_recipe.
  rewrite (authenticateToken_next _ _ _ Hauth).
  unfold mbind, M_bind, run, update_recipe.
  rewrite (select_owned _ _ _ _ _ Hid Hi Ho), Ht, Hde, Hing, Hins. simpl.
  by rewrite (imap_id_and_owner _ _ _ _ _ _ Hid Hi Ho).
Qed.

Lemma put_recipe_not_null req userId id i r b d :
  authenticated req userId →
  rowid_of_text id = Some i → recipes d !! i = Some r → r_userId r = userId →
  missing (b_title b) ∨ missing (b_description b) ∨
  missing (b_ingredients b) ∨ missing (b_instructions b) →
  put_recipe req id b d
  = (Reply 500 (error_body "Failed to update recipe"), d, [UpdateRecipe]).
Proof.
  intros Hauth Hid Hi Ho Hmiss. unfold put_recipe.
  rewrite (authenticateToken_next _ _ _ Hauth).
  unfold mbind, M_bind, run, update_recipe.
  rewrite (select_owned _ _ _ _ _ Hid Hi Ho).
  assert (bind_param (b_title b) = None ∨ bind_param (b_description b) = None ∨
          bind_param (b_ingredients b) = None ∨ bind_param (b_instructions b) = None)
    as Hnull.
  { unfold missing in Hmiss.
    destruct Hmiss as [[E|E]|[[E|E]|[[E|E]|[E|E]]]]; rewrite E; simpl; tauto. }
  destruct (bind_param (b_title b)), (bind_param (b_description b)),
    (bind_param (b_ingredients b)), (bind_param (b_instructions b));
    try done; destruct Hnull as [?|[?|[?|?]]]; done.
Qed.

Lemma recipe_validation_entries b e :
  e ∈ recipe_validation b ↔ recipe_violation b e.
Proof.
  unfold recipe_violation, recipe_validation, chain, entry.
  rewrite <- !notEmpty_false.
  destruct (notEmpty (b_title b)), (notEmpty (b_description b)),
    (notEmpty (b_ingredients b)), (notEmpty (b_instructions b)); simpl;
    rewrite ?elem_of_cons, ?elem_of_nil; intuition congruence.
Qed.

Lemma recipe_validation_NoDup b : NoDup (ve_path <$> recipe_validation b).
Proof.
  unfold recipe_validation, chain.
  destruct (notEmpty (b_title b)), (notEmpty (b_description b)),
    (notEmpty (b_ingredients b)), (notEmpty (b_instructions b)); simpl;
    repeat (apply NoDup_cons; split;
            [rewrite ?elem_of_cons, ?elem_of_nil; intuition discriminate|]);
    apply NoDup_nil_2.
Qed.

Lemma recipe_validation_nonempty b e :
  recipe_violation b e → recipe_validation b ≠ [].
Proof.
  intros Hv%recipe_validation_entries E. rewrite E in Hv.
  by apply elem_of_nil in Hv.
Qed.

Lemma recipe_validation_valid b title description ingredients instructions :
  valid_recipe b title description ingredients instructions →
  recipe_validation b = [].
Proof.
  intros ([Ht ?] & [Hde ?] & [Hing ?] & [Hins ?]). unfold recipe_validation.
  rewrite Ht, Hde, Hing, Hins.
  by rewrite !chain_accepts by by apply notEmpty_Val.
Qed.

Lemma post_recipes_invalid req userId b d :
  authenticated req userId → recipe_validation b ≠ [] →
  post_recipes req b d
  = (Reply 400 (errors_body (recipe_validation b)), d, []).
Proof.
  intros Hauth Hne. unfold post_recipes.
  rewrite (authenticateToken_next _ _ _ Hauth).
  destruct (recipe_validation b); [done|reflexivity].
Qed.

Lemma post_recipes_created req userId b d title description ingredients instructions :
  authenticated req userId →
  valid_recipe b title description ingredients instructions →
  post_recipes req b d
  = (Reply 201 (echoed b title description ingredients instructions
                  (next_rowid (recipes_seq d) (recipes d))),
     {| users := users d; users_seq := users_seq d;
        recipes := <[next_rowid (recipes_seq d) (recipes d) :=
                      created b title description ingredients instructions userId
                        (current_timestamp (now req))]> (recipes d);
        recipes_seq := next_rowid (recipes_seq d) (recipes d) |},
     [InsertRecipe]).
Proof.
  intros Hauth Hv. unfold post_recipes.
  rewrite (authenticateToken_next _ _ _ Hauth).
  rewrite (recipe_validation_valid _ _ _ _ _ Hv).
  destruct Hv as ([Ht _] & [Hde _] & [Hing _] & [Hins _]).
  unfold mbind, M_bind, run, insert_recipe, echoed. by rewrite Ht, Hde, Hing, Hins.
Qed.

(** Every member of the answer to a create is a column of the row as a
    [SELECT *] renders it. *)
Lemma echoed_within_row b title description ingredients instructions id userId ts k v :
  member k (echoed b title description ingredients instructions id) = Some v →
  member k (recipe_json
              (id, created b title description ingredients instructions userId ts))
  = Some v.
Proof.
  unfold echoed, created, obj.
  destruct (b_imageUrl b), (b_categoryId b); simpl;
    repeat match goal with
           | |- context [String.eqb k ?s] =>
               destruct (String.eqb_spec k s) as [->|_]; [simpl; done|]
           end;
    done.
Qed.

End RecipeRoutes.

Section Claims.
Context `{Libs}.

(** C2. Authorization gate.  For each of the four recipe operations
    (list, get by id, create, update): a request that carries no token is
    answered 401 "Access denied. No token provided.", a request whose
    token fails verification is answered 400 "Invalid token.", and in both
    cases no statement is sent to the database, which stays as it was.
    Conversely, an operation that sends a statement or changes the
    database was called with a token that verifies. *)
Theorem authorization_gate (req : request) (id : string) (b : recipe_body)
    (d : db) (op : M reply) :
  op ∈ recipe_operations req id b →
  (∀ r, rejected req r → op d = (r, d, [])) ∧
  (∀ r d' log, op d = (r, d', log) → log ≠ [] ∨ d' ≠ d →
     ∃ userId, authenticated req userId).
Proof.
  intros Hop.
  assert (∃ next, op = authenticateToken req next) as [next ->].
  { unfold recipe_operations in Hop.
    repeat (apply elem_of_cons in Hop as [->|Hop]); try (by eexists).
    by apply elem_of_nil in Hop. }
  split.
  - intros r Hr. by apply authenticateToken_rejected.
  - intros r d' log Hrun Heff.
    destruct (gate_cases req) as [[r' Hr']|Hauth]; [|done].
    rewrite (authenticateToken_rejected _ _ _ _ Hr') in Hrun.
    injection Hrun as _ <- <-. destruct Heff; done.
Qed.

(** C1. Owner confidentiality.  Let [B] own the recipe stored under the
    id that the route parameter denotes, and let the request be
    authenticated as another user [A].  Then [GET /recipes/:id] answers
    404 "Recipe not found" and [PUT /recipes/:id] answers 404 "Recipe not
    found or unauthorized"; neither answer carries the recipe, and the
    database, with [B]'s row in it, is what it was.  Both answers are the
    ones the same request gets for an id under which nothing is stored. *)
Theorem owner_confidentiality (req : request) (A B : Z) (id : string) (i : Z)
    (r : recipe_row) (b : recipe_body) (d : db) :
  A ≠ B →
  authenticated req A →
  rowid_of_text id = Some i → recipes d !! i = Some r → r_userId r = B →
  get_recipe_by_id req id d
    = (Reply 404 (error_body "Recipe not found"), d, [SelectRecipeById]) ∧
  put_recipe req id b d
    = (Reply 404 (error_body "Recipe not found or unauthorized"), d, [UpdateRecipe]) ∧
  (∀ id', (∀ j, rowid_of_text id' = Some j → recipes d !! j = None) →
     get_recipe_by_id req id' d = get_recipe_by_id req id d ∧
     put_recipe req id' b d = put_recipe req id b d).
Proof.
  intros Hne Hauth Hid Hi Ho.
  assert (unmatched id A d) as Hno.
  { intros j r' Hj Hr'. rewrite Hid in Hj. injection Hj as <-.
    rewrite Hi in Hr'. injection Hr' as <-. congruence. }
  split; [|split].
  - by apply (get_recipe_by_id_unmatched req A).
  - by apply (put_recipe_unmatched req A).
  - intros id' Hnone.
    assert (unmatched id' A d) as Hno'.
    { intros j r' Hj Hr'. rewrite (Hnone j Hj) in Hr'. done. }
    rewrite (get_recipe_by_id_unmatched req A id' d Hauth Hno').
    rewrite (get_recipe_by_id_unmatched req A id d Hauth Hno).
    rewrite (put_recipe_unmatched req A id' b d Hauth Hno').
    by rewrite (put_recipe_unmatched req A id b d Hauth Hno).
Qed.

(** C3, as amended.  For an authenticated [PUT /recipes/:id]: if no row
    has both the given id and the caller as owner, the answer is 404
    "Recipe not found or unauthorized" and nothing changes (so it is for
    an id such as 999999 under which nothing is stored).  If such a row
    exists and the body gives a text, possibly empty, for each of title,
    description, ingredients and instructions, then that row's title,
    description, ingredients, instructions, categoryId and imageUrl are
    overwritten with the body's values, every other row and column stays,
    and the answer is 200 "Recipe updated successfully". *)
Theorem put_recipe_contract (req : request) (userId : Z) (id : string)
    (b : recipe_body) (d : db) :
  authenticated req userId →
  (unmatched id userId d →
     put_recipe req id b d
     = (Reply 404 (error_body "Recipe not found or unauthorized"), d, [UpdateRecipe])) ∧
  (∀ i r title description ingredients instructions,
     rowid_of_text id = Some i → recipes d !! i = Some r → r_userId r = userId →
     b_title b = Val title → b_description b = Val description →
     b_ingredients b = Val ingredients → b_instructions b = Val instructions →
     ∃ d',
       put_recipe req id b d
       = (Reply 200 (JObj [("message", JStr "Recipe updated successfully")]),
          d', [UpdateRecipe]) ∧
       recipes d' !! i
       = Some {| r_title := title; r_description := description;
                 r_ingredients := ingredients; r_instructions := instructions;
                 r_imageUrl := bind_param (b_imageUrl b);
                 r_categoryId := bind_param (b_categoryId b);
                 r_userId := userId; r_createdAt := r_createdAt r |} ∧
       (∀ j, j ≠ i → recipes d' !! j = recipes d !! j) ∧
       users d' = users d).
Proof.
  intros Hauth. split.
  - by apply (put_recipe_unmatched req userId).
  - intros i r t de ing ins Hid Hi Ho Ht Hde Hing Hins.
    eexists. split; [by eapply put_recipe_owned|]. simpl.
    split; [|split; [|done]].
    + rewrite lookup_insert_eq. unfold overwritten. by rewrite Ho.
    + intros j Hj. by rewrite lookup_insert_ne.
Qed.

(** C10. For an authenticated [PUT /recipes/:id] on a recipe the caller
    owns, a body that leaves out or nulls any of title, description,
    ingredients or instructions is answered 500 "Failed to update recipe"
    (the [NOT NULL] constraint of the column, not a validation error), and
    the database, the targeted row included, is exactly what it was. *)
Theorem put_recipe_missing_field (req : request) (userId : Z) (id : string) (i : Z)
    (r : recipe_row) (b : recipe_body) (d : db) :
  authenticated req userId →
  rowid_of_text id = Some i → recipes d !! i = Some r → r_userId r = userId →
  missing (b_title b) ∨ missing (b_description b) ∨
  missing (b_ingredients b) ∨ missing (b_instructions b) →
  ∃ d',
    put_recipe req id b d
    = (Reply 500 (JObj [("error", JStr "Failed to update recipe")]), d', [UpdateRecipe]) ∧
    d' = d ∧ recipes d' !! i = Some r.
Proof.
  intros Hauth Hid Hi Ho Hmiss. exists d.
  split; [|done]. by eapply put_recipe_not_null.
Qed.

(** C4, as amended.  For a login request that passes validation (the
    email is syntactically valid and the password is not empty): if no
    stored user has the email the answer is 404 "User not found"; if the
    user with that email is stored and the password does not match the
    stored hash the answer is 401 "Invalid credentials"; if it matches,
    the answer is 200 with a token issued for that user at the time of
    the request, and the token is the only member of the body.  The
    database is only read. *)
Theorem login_contract (req : request) (b : login_body) (email password : string)
    (d : db) :
  valid_login b email password →
  (unknown_email d email →
     post_login req b d
     = (Reply 404 (error_body "User not found"), d, [SelectUserByEmail])) ∧
  (∀ id u, sole_user d email id u →
     bcrypt_compare password (u_password u) = false →
     post_login req b d
     = (Reply 401 (error_body "Invalid credentials"), d, [SelectUserByEmail])) ∧
  (∀ id u, sole_user d email id u →
     bcrypt_compare password (u_password u) = true →
     ∃ payload,
       post_login req b d = (Reply 200 payload, d, [SelectUserByEmail]) ∧
       payload = JObj [("token", JStr (generateToken id (now req)))] ∧
       keys payload = ["token"]).
Proof.
  intros Hv. split; [|split].
  - intros Hno. by eapply post_login_unknown.
  - intros id u Hsole Hcmp.
    rewrite (post_login_known _ _ _ _ _ _ _ Hv Hsole). by rewrite Hcmp.
  - intros id u Hsole Hcmp. eexists. split; [|done].
    rewrite (post_login_known _ _ _ _ _ _ _ Hv Hsole). by rewrite Hcmp.
Qed.

(** C5, as amended.  A signup request that violates a constraint (empty
    name, syntactically invalid email, password shorter than 6
    characters) is answered 400 with an error list that has exactly one
    entry for each violated field, all of them together, and nothing is
    sent to the database.  A request that meets the three constraints
    and whose email no stored user has creates one user row, under a
    fresh id, whose password column is the bcrypt hash of the password,
    and is answered 201 with that id, the name, the email and a token
    issued for the id. *)
Theorem signup_contract (req : request) (salt : string) (b : signup_body) (d : db) :
  (∀ e, signup_violation b e →
     post_signup req salt b d
       = (Reply 400 (errors_body (signup_validation b)), d, []) ∧
     (∀ e', e' ∈ signup_validation b ↔ signup_violation b e') ∧
     NoDup (ve_path <$> signup_validation b)) ∧
  (∀ name email password,
     valid_signup b name email password → unknown_email d email →
     ∃ id d',
       post_signup req salt b d
       = (Reply 201 (JObj [ ("id", JNum id); ("name", JStr name);
                            ("email", JStr email);
                            ("token", JStr (jwt_sign id secret 3600 (now req))) ]),
          d', [InsertUser]) ∧
       users d !! id = None ∧
       users d' = <[id := {| u_name := name; u_email := email;
                             u_password := bcrypt_hash password 10 salt;
                             u_createdAt := current_timestamp (now req) |}]> (users d) ∧
       recipes d' = recipes d).
Proof.
  split.
  - intros e He. split; [|split].
    + apply post_signup_invalid. by eapply signup_validation_nonempty.
    + apply signup_validation_entries.
    + apply signup_validation_NoDup.
  - intros name email password Hv Hno. eexists _, _.
    split; [by apply post_signup_created|]. simpl.
    split; [apply next_rowid_fresh|done].
Qed.

(** C6, as amended.  A signup request that passes validation and whose
    email is the email of a stored user is answered 400 "Email already
    exists", whatever valid name and password it carries, and the
    database is left as it was. *)
Theorem signup_duplicate_email (req : request) (salt : string) (b : signup_body)
    (name email password : string) (d : db) (id : Z) (u : user_row) :
  valid_signup b name email password →
  users d !! id = Some u → u_email u = email →
  post_signup req salt b d
  = (Reply 400 (error_body "Email already exists"), d, [InsertUser]).
Proof. intros Hv Hk He. by eapply post_signup_taken. Qed.

(** C7. Create validation.  An authenticated [POST /recipes] in which
    any of title, description, ingredients or instructions is empty is
    answered 400 with an error list that has one entry, naming the field,
    for every empty required field and no other entry; no statement is
    sent to the database, so no recipe row is inserted. *)
Theorem create_validation (req : request) (userId : Z) (b : recipe_body) (d : db) :
  authenticated req userId →
  empty (b_title b) ∨ empty (b_description b) ∨
  empty (b_ingredients b) ∨ empty (b_instructions b) →
  ∃ errors,
    post_recipes req b d = (Reply 400 (errors_body errors), d, []) ∧
    (∀ e, e ∈ errors ↔ recipe_violation b e) ∧
    NoDup (ve_path <$> errors).
Proof.
  intros Hauth Hempty. exists (recipe_validation b). split; [|split].
  - apply (post_recipes_invalid req userId); [done|].
    unfold recipe_violation in *.
    destruct Hempty as [?|[?|[?|?]]];
      eapply recipe_validation_nonempty; unfold recipe_violation; eauto 10.
  - apply recipe_validation_entries.
  - apply recipe_validation_NoDup.
Qed.

(** C8, as amended.  An authenticated [POST /recipes] whose four
    required fields are not empty inserts one row, under a fresh id,
    owned by the caller and holding the body's values, and is answered
    201 with the generated id and the body's title, description,
    ingredients, instructions, imageUrl and categoryId (the last two only
    if the body has them).  Every member of the answer is the column of
    the same name of the stored row; the row's userId and createdAt are
    not in the answer. *)
Theorem create_recipe_response (req : request) (userId : Z) (b : recipe_body)
    (title description ingredients instructions : string) (d : db) :
  authenticated req userId →
  valid_recipe b title description ingredients instructions →
  ∃ id row payload d',
    post_recipes req b d = (Reply 201 payload, d', [InsertRecipe]) ∧
    recipes d !! id = None ∧
    recipes d' = <[id := row]> (recipes d) ∧ users d' = users d ∧
    row = created b title description ingredients instructions userId
            (current_timestamp (now req)) ∧
    payload = echoed b title description ingredients instructions id ∧
    (∀ k v, member k payload = Some v → member k (recipe_json (id, row)) = Some v) ∧
    member "userId" payload = None ∧ member "createdAt" payload = None.
Proof.
  intros Hauth Hv. eexists _, _, _, _.
  split; [by apply (post_recipes_created req userId)|]. simpl.
  split; [apply next_rowid_fresh|].
  do 4 (split; [done|]).
  split; [intros k v; apply echoed_within_row|].
  unfold echoed, obj. by destruct (b_imageUrl b), (b_categoryId b).
Qed.

(** C9, as amended.  After an authenticated [POST /recipes] with a valid
    body, a [GET /recipes/:id] by the same user with the generated id
    returns the recipe: title, description, ingredients and instructions
    with exactly the values given, imageUrl and categoryId with the
    values given or [null] where the body had none, the generated id, the
    caller's userId, and the timestamp of the creation. *)
Theorem create_then_get (req req' : request) (userId : Z) (b : recipe_body)
    (title description ingredients instructions : string) (d : db) :
  authenticated req userId → authenticated req' userId →
  valid_recipe b title description ingredients instructions →
  ∃ id payload d',
    post_recipes req b d = (Reply 201 payload, d', [InsertRecipe]) ∧
    member "id" payload = Some (JNum id) ∧
    ∀ idtext, rowid_of_text idtext = Some id →
      get_recipe_by_id req' idtext d'
      = (Reply 200
           (JObj [ ("id", JNum id);
                   ("title", JStr title);
                   ("description", JStr description);
                   ("ingredients", JStr ingredients);
                   ("instructions", JStr instructions);
                   ("imageUrl", from_option JStr JNull (bind_param (b_imageUrl b)));
                   ("categoryId", from_option JNum JNull (bind_param (b_categoryId b)));
                   ("userId", JNum userId);
                   ("createdAt", JStr (current_timestamp (now req))) ]),
         d', [SelectRecipeById]).
Proof.
  intros Hauth Hauth' Hv. eexists _, _, _.
  split; [by apply (post_recipes_created req userId)|].
  split; [done|].
  intros idtext Hid.
  apply (get_recipe_by_id_owned req' userId idtext
           (next_rowid (recipes_seq d) (recipes d))
           (created b title description ingredients instructions userId
              (current_timestamp (now req)))); [done|done| |done].
  simpl. apply lookup_insert_eq.
Qed.

End Claims.

(** ** Invariants of the store *)

Section Invariants.
Context `{Libs}.

Lemma unique_emails_empty : unique_emails empty_db.
Proof. intros id1 id2 u1 u2 H1. simpl in H1. by rewrite lookup_empty in H1. Qed.

Lemma sole_user_of_unique d id u :
  unique_emails d → users d !! id = Some u → sole_user d (u_email u) id u.
Proof.
  intros Hu Hid. split; [done|split; [done|]].
  intros id' u' Hid' He. by apply (Hu id' id u' u).
Qed.

Lemma insert_user_unique name email password ts d id d' :
  unique_emails d → insert_user name email password ts d = inr (id, d') →
  unique_emails d'.
Proof.
  intros Hu. unfold insert_user.
  destruct name as [n|], email as [e|], password as [p|]; try done.
  destruct (select _ (users d)) eqn:Hsel; [|done].
  intros [= <- <-]. simpl.
  pose proof (proj1 (select_nil _ _) Hsel) as Hfree. simpl in Hfree.
  pose proof (next_rowid_fresh (users_seq d) (users d)) as Hfresh.
  intros id1 id2 u1 u2. simpl. rewrite !lookup_insert.
  repeat case_decide; subst; try done.
  - intros [= <-] H2 He. simpl in He.
    specialize (Hfree _ _ H2). apply String.eqb_neq in Hfree. congruence.
  - intros H1 [= <-] He. simpl in He.
    specialize (Hfree _ _ H1). apply String.eqb_neq in Hfree. congruence.
  - apply Hu.
Qed.

(** Only a signup writes to [users]. *)
Lemma authenticateToken_users req next d :
  (∀ userId d0, users (next userId d0).1.2 = users d0) →
  users (authenticateToken req next d).1.2 = users d.
Proof.
  intros Hnext. unfold authenticateToken.
  destruct (bearer req) as [token|]; [|done].
  destruct (negb (Js.truthy token)); [done|].
  destruct (jwt_verify token secret (now req)); [apply Hnext|done].
Qed.

Lemma recipe_routes_users req c d :
  (∀ salt b, c ≠ PostSignup salt b) → users (serve req c d).1.2 = users d.
Proof.
  intros Hc. destruct c as [salt b|b| |id|b|id b]; simpl.
  - by destruct (Hc salt b).
  - unfold post_login. destruct (login_validation b); [|done].
    unfold mbind, M_bind, query.
    destruct (get_user_by_email _ d) as [[id u]|]; [|done].
    destruct (l_password b); try done. simpl.
    by destruct (negb (bcrypt_compare _ _)).
  - apply authenticateToken_users. done.
  - apply authenticateToken_users. intros userId d0.
    unfold mbind, M_bind, query. by destruct (get_recipe id userId d0).
  - apply authenticateToken_users. intros userId d0.
    destruct (recipe_validation b); [|done].
    unfold mbind, M_bind, run, insert_recipe.
    by destruct (bind_param (b_title b)), (bind_param (b_description b)),
      (bind_param (b_ingredients b)), (bind_param (b_instructions b)).
  - apply authenticateToken_users. intros userId d0.
    unfold mbind, M_bind, run, update_recipe.
    destruct (select _ (recipes d0)); [done|].
    destruct (bind_param (b_title b)), (bind_param (b_description b)),
      (bind_param (b_ingredients b)), (bind_param (b_instructions b));
      try done; simpl; by destruct (Nat.eqb _ _).
Qed.

Lemma serve_unique_emails req c d :
  unique_emails d → unique_emails (serve req c d).1.2.
Proof.
  intros Hu.
  destruct c as [salt b|b| |id|b|id b];
    try (unfold unique_emails; rewrite recipe_routes_users by done; apply Hu).
  simpl. unfold post_signup.
  destruct (signup_validation b); [|done].
  destruct (s_password b) as [| |password]; try done.
  unfold mbind, M_bind, run.
  destruct (insert_user _ _ _ _ d) as [err|[id d']] eqn:Hins.
  - simpl. by destruct (Js.includes _ _).
  - simpl. by eapply insert_user_unique.
Qed.

(** X9. Every database the server reaches from the empty one, by any
    sequence of requests, has at most one user per email. *)
Lemma reachable_unique_emails calls :
  unique_emails (serve_all calls empty_db).
Proof.
  generalize unique_emails_empty. generalize empty_db.
  induction calls as [|[req c] rest IH]; intros d Hu; [done|].
  simpl. apply IH. by apply serve_unique_emails.
Qed.

End Invariants.

(** ** The claims at concrete requests *)

Section SampleFacts.

Lemma ann_authenticated : authenticated (H:=Sample.libs) Sample.ann_req 1.
Proof. exists "jwt:i". repeat split; done. Qed.

Lemma bob_authenticated : authenticated (H:=Sample.libs) Sample.bob_req 2.
Proof. exists "jwt:ii". repeat split; done. Qed.

Lemma anonymous_rejected :
  rejected (H:=Sample.libs) Sample.anonymous
    (Reply 401 (error_body "Access denied. No token provided.")).
Proof. apply rejected_missing. by left. Qed.

Lemma junk_rejected :
  rejected (H:=Sample.libs) (Sample.as_user "junk")
    (Reply 400 (error_body "Invalid token.")).
Proof. by apply (rejected_invalid _ "junk"). Qed.

Lemma kitchen_sole_ann : sole_user Sample.kitchen "a@x.com" 1 Sample.ann.
Proof.
  split; [done|split; [done|]]. intros id u Hid _. simpl in Hid.
  apply lookup_singleton_Some in Hid. by destruct Hid.
Qed.

Lemma empty_db_unknown email : unknown_email empty_db email.
Proof. intros id u Hid. simpl in Hid. by rewrite lookup_empty in Hid. Qed.

Lemma kitchen_unmatched id userId :
  Sample.rowid id ≠ Some 1 → unmatched (H:=Sample.libs) id userId Sample.kitchen.
Proof.
  intros Hid i r Hi Hr. simpl in Hi, Hr.
  apply lookup_singleton_Some in Hr as [<- _]. done.
Qed.

End SampleFacts.

Lemma authorization_gate_witness :
  (get_recipes (H:=Sample.libs) Sample.anonymous
     ∈ recipe_operations (H:=Sample.libs) Sample.anonymous "1" Sample.soup ∧
   get_recipes (H:=Sample.libs) Sample.anonymous Sample.kitchen
     = (Reply 401 (error_body "Access denied. No token provided."), Sample.kitchen, [])) ∧
  (put_recipe (H:=Sample.libs) (Sample.as_user "junk") "1" Sample.soup
     ∈ recipe_operations (H:=Sample.libs) (Sample.as_user "junk") "1" Sample.soup ∧
   put_recipe (H:=Sample.libs) (Sample.as_user "junk") "1" Sample.soup Sample.kitchen
     = (Reply 400 (error_body "Invalid token."), Sample.kitchen, [])).
Proof.
  assert (get_recipes (H:=Sample.libs) Sample.anonymous
            ∈ recipe_operations (H:=Sample.libs) Sample.anonymous "1" Sample.soup)
    as Hlist by (unfold recipe_operations; left).
  assert (put_recipe (H:=Sample.libs) (Sample.as_user "junk") "1" Sample.soup
            ∈ recipe_operations (H:=Sample.libs) (Sample.as_user "junk") "1" Sample.soup)
    as Hput by (unfold recipe_operations; do 3 right; left).
  split; (split; [assumption|]).
  - exact (proj1 (authorization_gate (H:=Sample.libs) Sample.anonymous "1" Sample.soup
                    Sample.kitchen _ Hlist) _ anonymous_rejected).
  - exact (proj1 (authorization_gate (H:=Sample.libs) (Sample.as_user "junk") "1"
                    Sample.soup Sample.kitchen _ Hput) _ junk_rejected).
Defined.

Lemma owner_confidentiality_witness :
  (2 ≠ 1 ∧ authenticated (H:=Sample.libs) Sample.bob_req 2 ∧
   Sample.rowid "1" = Some 1 ∧
   recipes Sample.kitchen !! 1 = Some (Sample.soup_row 1)) ∧
  get_recipe_by_id (H:=Sample.libs) Sample.bob_req "1" Sample.kitchen
    = (Reply 404 (error_body "Recipe not found"), Sample.kitchen, [SelectRecipeById]) ∧
  put_recipe (H:=Sample.libs) Sample.bob_req "1" Sample.soup Sample.kitchen
    = (Reply 404 (error_body "Recipe not found or unauthorized"), Sample.kitchen,
       [UpdateRecipe]).
Proof.
  assert (2 ≠ 1) as Hne by lia.
  assert (Sample.rowid "1" = Some 1) as Hid by reflexivity.
  assert (recipes Sample.kitchen !! 1 = Some (Sample.soup_row 1)) as Hrow by reflexivity.
  split; [by auto using bob_authenticated|].
  pose proof (owner_confidentiality (H:=Sample.libs) Sample.bob_req 2 1 "1" 1
                (Sample.soup_row 1) Sample.soup Sample.kitchen
                Hne bob_authenticated Hid Hrow eq_refl) as (Hget & Hput & _).
  by split.
Defined.

Lemma put_recipe_contract_witness :
  authenticated (H:=Sample.libs) Sample.ann_req 1 ∧
  put_recipe (H:=Sample.libs) Sample.ann_req "999999" Sample.soup Sample.kitchen
    = (Reply 404 (error_body "Recipe not found or unauthorized"), Sample.kitchen,
       [UpdateRecipe]) ∧
  ∃ d',
    put_recipe (H:=Sample.libs) Sample.ann_req "1" Sample.blank_title Sample.kitchen
      = (Reply 200 (JObj [("message", JStr "Recipe updated successfully")]), d',
         [UpdateRecipe]) ∧
    recipes d' !! 1
      = Some {| r_title := ""; r_description := "cold"; r_ingredients := "ice";
                r_instructions := "wait"; r_imageUrl := None; r_categoryId := Some 3;
                r_userId := 1; r_createdAt := "2024-01-01 00:00:00" |}.
Proof.
  pose proof (put_recipe_contract (H:=Sample.libs) Sample.ann_req 1 "999999"
                Sample.soup Sample.kitchen ann_authenticated) as [Hmiss _].
  pose proof (put_recipe_contract (H:=Sample.libs) Sample.ann_req 1 "1"
                Sample.blank_title Sample.kitchen ann_authenticated) as [_ Hhit].
  split; [exact ann_authenticated|]. split.
  - apply Hmiss. by apply kitchen_unmatched.
  - destruct (Hhit 1 (Sample.soup_row 1) "" "cold" "ice" "wait"
                eq_refl eq_refl eq_refl eq_refl eq_refl eq_refl eq_refl)
      as (d' & Hrun & Hrow & _).
    by exists d'.
Defined.

Lemma put_recipe_missing_field_witness :
  (authenticated (H:=Sample.libs) Sample.ann_req 1 ∧
   recipes Sample.kitchen !! 1 = Some (Sample.soup_row 1) ∧
   missing (b_title Sample.no_title)) ∧
  ∃ d',
    put_recipe (H:=Sample.libs) Sample.ann_req "1" Sample.no_title Sample.kitchen
      = (Reply 500 (JObj [("error", JStr "Failed to update recipe")]), d', [UpdateRecipe]) ∧
    d' = Sample.kitchen ∧ recipes d' !! 1 = Some (Sample.soup_row 1).
Proof.
  assert (missing (b_title Sample.no_title)) as Hmiss by (by right).
  split; [by auto using ann_authenticated|].
  exact (put_recipe_missing_field (H:=Sample.libs) Sample.ann_req 1 "1" 1
           (Sample.soup_row 1) Sample.no_title Sample.kitchen
           ann_authenticated eq_refl eq_refl eq_refl (or_introl Hmiss)).
Defined.

Lemma login_contract_witness :
  valid_login (H:=Sample.libs) Sample.ann_login "a@x.com" "secret1" ∧
  post_login (H:=Sample.libs) Sample.anonymous Sample.ann_login empty_db
    = (Reply 404 (error_body "User not found"), empty_db, [SelectUserByEmail]) ∧
  post_login (H:=Sample.libs) Sample.anonymous Sample.ann_typo Sample.kitchen
    = (Reply 401 (error_body "Invalid credentials"), Sample.kitchen, [SelectUserByEmail]) ∧
  ∃ payload,
    post_login (H:=Sample.libs) Sample.anonymous Sample.ann_login Sample.kitchen
      = (Reply 200 payload, Sample.kitchen, [SelectUserByEmail]) ∧
    payload = JObj [("token", JStr "jwt:i")] ∧ keys payload = ["token"].
Proof.
  assert (valid_login (H:=Sample.libs) Sample.ann_login "a@x.com" "secret1") as Hv
    by (repeat split; done).
  assert (valid_login (H:=Sample.libs) Sample.ann_typo "a@x.com" "secret2") as Hv'
    by (repeat split; done).
  split; [exact Hv|]. split; [|split].
  - exact (proj1 (login_contract (H:=Sample.libs) Sample.anonymous Sample.ann_login
                    "a@x.com" "secret1" empty_db Hv) (empty_db_unknown _)).
  - exact (proj1 (proj2 (login_contract (H:=Sample.libs) Sample.anonymous
                           Sample.ann_typo "a@x.com" "secret2" Sample.kitchen Hv'))
             1 Sample.ann kitchen_sole_ann eq_refl).
  - exact (proj2 (proj2 (login_contract (H:=Sample.libs) Sample.anonymous
                           Sample.ann_login "a@x.com" "secret1" Sample.kitchen Hv))
             1 Sample.ann kitchen_sole_ann eq_refl).
Defined.

Lemma signup_contract_witness :
  (signup_violation (H:=Sample.libs) Sample.sloppy_signup
     (entry "name" (Val "") "Name is required") ∧
   post_signup (H:=Sample.libs) Sample.anonymous "salt" Sample.sloppy_signup empty_db
     = (Reply 400
          (errors_body
             [ entry "name" (Val "") "Name is required";
               entry "password" (Val "abc") "Password must be at least 6 characters long" ]),
        empty_db, [])) ∧
  (valid_signup (H:=Sample.libs) Sample.ann_signup "A" "a@x.com" "secret1" ∧
   ∃ d',
     post_signup (H:=Sample.libs) Sample.anonymous "salt" Sample.ann_signup empty_db
       = (Reply 201 (JObj [ ("id", JNum 1); ("name", JStr "A");
                            ("email", JStr "a@x.com"); ("token", JStr "jwt:i") ]),
          d', [InsertUser]) ∧
     users d' !! 1 = Some Sample.ann).
Proof.
  assert (signup_violation (H:=Sample.libs) Sample.sloppy_signup
            (entry "name" (Val "") "Name is required")) as Hbad
    by (left; split; reflexivity).
  assert (valid_signup (H:=Sample.libs) Sample.ann_signup "A" "a@x.com" "secret1") as Hv
    by (repeat split; try done; simpl; lia).
  split; (split; [assumption|]).
  - exact (proj1 (proj1 (signup_contract (H:=Sample.libs) Sample.anonymous "salt"
                           Sample.sloppy_signup empty_db) _ Hbad)).
  - destruct (proj2 (signup_contract (H:=Sample.libs) Sample.anonymous "salt"
                       Sample.ann_signup empty_db) "A" "a@x.com" "secret1" Hv
                (empty_db_unknown _)) as (id & d' & Hrun & _ & Husers & _).
    assert (id = 1) as ->.
    { pose proof Hrun as Hrun'. vm_compute in Hrun'. by injection Hrun' as ? _. }
    exists d'. split; [exact Hrun|]. rewrite Husers. reflexivity.
Defined.

Lemma signup_duplicate_email_witness :
  (valid_signup (H:=Sample.libs) Sample.second_signup "B" "a@x.com" "secret2" ∧
   users Sample.kitchen !! 1 = Some Sample.ann ∧ u_email Sample.ann = "a@x.com") ∧
  post_signup (H:=Sample.libs) Sample.anonymous "salt" Sample.second_signup Sample.kitchen
    = (Reply 400 (error_body "Email already exists"), Sample.kitchen, [InsertUser]).
Proof.
  assert (valid_signup (H:=Sample.libs) Sample.second_signup "B" "a@x.com" "secret2") as Hv
    by (repeat split; try done; simpl; lia).
  split; [split; [exact Hv|split; reflexivity]|].
  exact (signup_duplicate_email (H:=Sample.libs) Sample.anonymous "salt"
           Sample.second_signup "B" "a@x.com" "secret2" Sample.kitchen 1 Sample.ann
           Hv eq_refl eq_refl).
Defined.

Lemma create_validation_witness :
  (authenticated (H:=Sample.libs) Sample.ann_req 1 ∧
   empty (b_title Sample.blank_title)) ∧
  ∃ errors,
    post_recipes (H:=Sample.libs) Sample.ann_req Sample.blank_title Sample.kitchen
      = (Reply 400 (errors_body errors), Sample.kitchen, []) ∧
    entry "title" (Val "") "Title is required" ∈ errors.
Proof.
  assert (empty (b_title Sample.blank_title)) as Hempty by reflexivity.
  split; [by auto using ann_authenticated|].
  destruct (create_validation (H:=Sample.libs) Sample.ann_req 1 Sample.blank_title
              Sample.kitchen ann_authenticated (or_introl Hempty))
    as (errors & Hrun & Hentries & _).
  exists errors. split; [exact Hrun|].
  apply Hentries. left. by split.
Defined.

Lemma create_recipe_response_witness :
  (authenticated (H:=Sample.libs) Sample.ann_req 1 ∧
   valid_recipe Sample.soup "Soup" "hot" "water" "boil") ∧
  ∃ d',
    post_recipes (H:=Sample.libs) Sample.ann_req Sample.soup Sample.kitchen
      = (Reply 201 (JObj [ ("id", JNum 2); ("title", JStr "Soup");
                           ("description", JStr "hot"); ("ingredients", JStr "water");
                           ("instructions", JStr "boil") ]),
         d', [InsertRecipe]) ∧
    recipes d' = <[2 := Sample.soup_row 1]> (recipes Sample.kitchen).
Proof.
  assert (valid_recipe Sample.soup "Soup" "hot" "water" "boil") as Hv
    by (repeat split; done).
  split; [by auto using ann_authenticated|].
  destruct (create_recipe_response (H:=Sample.libs) Sample.ann_req 1 Sample.soup
              "Soup" "hot" "water" "boil" Sample.kitchen ann_authenticated Hv)
    as (id & row & payload & d' & Hrun & _ & Hrec & _ & -> & -> & _).
  exists d'.
  assert (id = 2) as ->.
  { pose proof Hrun as Hrun'. vm_compute in Hrun'. by injection Hrun' as ? _. }
  split; [exact Hrun|exact Hrec].
Defined.

Lemma create_then_get_witness :
  (authenticated (H:=Sample.libs) Sample.ann_req 1 ∧
   valid_recipe Sample.soup "Soup" "hot" "water" "boil") ∧
  ∃ d',
    post_recipes (H:=Sample.libs) Sample.ann_req Sample.soup Sample.kitchen
      = (Reply 201 (JObj [ ("id", JNum 2); ("title", JStr "Soup");
                           ("description", JStr "hot"); ("ingredients", JStr "water");
                           ("instructions", JStr "boil") ]),
         d', [InsertRecipe]) ∧
    get_recipe_by_id (H:=Sample.libs) Sample.ann_req "2" d'
      = (Reply 200 (JObj [ ("id", JNum 2); ("title", JStr "Soup");
                           ("description", JStr "hot"); ("ingredients", JStr "water");
                           ("instructions", JStr "boil"); ("imageUrl", JNull);
                           ("categoryId", JNull); ("userId", JNum 1);
                           ("createdAt", JStr "2024-01-01 00:00:00") ]),
         d', [SelectRecipeById]).
Proof.
  assert (valid_recipe Sample.soup "Soup" "hot" "water" "boil") as Hv
    by (repeat split; done).
  split; [by auto using ann_authenticated|].
  destruct (create_then_get (H:=Sample.libs) Sample.ann_req Sample.ann_req 1
              Sample.soup "Soup" "hot" "water" "boil" Sample.kitchen
              ann_authenticated ann_authenticated Hv)
    as (id & payload & d' & Hrun & Hid & Hget).
  exists d'.
  assert (id = 2 ∧ payload = JObj [ ("id", JNum 2); ("title", JStr "Soup");
                           ("description", JStr "hot"); ("ingredients", JStr "water");
                           ("instructions", JStr "boil") ]) as [-> ->].
  { pose proof Hrun as Hrun'. vm_compute in Hrun'. injection Hrun' as Hp _.
    subst payload. vm_compute in Hid. by injection Hid as <-. }
  split; [exact Hrun|]. exact (Hget "2" eq_refl).
Defined.

(** ** Where the stated claims and the server part *)

(** C3 as stated fails: user 1 owns recipe 1, so the id and the owner
    match, yet a body whose title is [null] is answered 500 and the row
    is not overwritten. *)
Lemma put_null_title_is_store_error :
  recipes Sample.kitchen !! 1 = Some (Sample.soup_row 1) ∧
  r_userId (Sample.soup_row 1) = 1 ∧
  jwt_verify (Libs:=Sample.libs) "jwt:i" secret 0 = Some 1 ∧
  put_recipe (H:=Sample.libs) Sample.ann_req "1" Sample.no_title Sample.kitchen
    = (Reply 500 (JObj [("error", JStr "Failed to update recipe")]), Sample.kitchen,
       [UpdateRecipe]) ∧
  status_of (put_recipe (H:=Sample.libs) Sample.ann_req "1" Sample.no_title
               Sample.kitchen).1.1 ≠ Some 200.
Proof. repeat split; done. Qed.

(** C4 as stated fails: no user has the email ["nobody"], yet the login
    is answered 400 with a validation error, not 404, and the users table
    is not consulted. *)
Lemma login_invalid_email_is_validation_error :
  users empty_db = ∅ ∧
  post_login (H:=Sample.libs) Sample.anonymous Sample.nobody_login empty_db
    = (Reply 400 (errors_body [entry "email" (Val "nobody") "Invalid email"]),
       empty_db, []) ∧
  status_of (post_login (H:=Sample.libs) Sample.anonymous Sample.nobody_login
               empty_db).1.1 ≠ Some 404.
Proof. repeat split; done. Qed.

(** C5 as stated fails: the name is not empty, the email is well formed
    and the password has 7 characters, yet no user is created, because
    user 1 already has the email. *)
Lemma signup_valid_but_email_taken :
  notEmpty (s_name Sample.second_signup) = true ∧
  isEmail (Libs:=Sample.libs) (toString (s_email Sample.second_signup)) = true ∧
  isLength_min (H:=Sample.libs) 6 (s_password Sample.second_signup) = true ∧
  post_signup (H:=Sample.libs) Sample.anonymous "salt" Sample.second_signup Sample.kitchen
    = (Reply 400 (JObj [("error", JStr "Email already exists")]), Sample.kitchen,
       [InsertUser]) ∧
  status_of (post_signup (H:=Sample.libs) Sample.anonymous "salt" Sample.second_signup
               Sample.kitchen).1.1 ≠ Some 201.
Proof. repeat split; done. Qed.

(** C6 as stated fails: the email is that of user 1, yet with an empty
    name and a 3-character password the answer is the validation error
    list, not "Email already exists". *)
Lemma signup_duplicate_with_invalid_fields :
  users Sample.kitchen !! 1 = Some Sample.ann ∧
  Val (u_email Sample.ann) = s_email Sample.sloppy_signup ∧
  post_signup (H:=Sample.libs) Sample.anonymous "salt" Sample.sloppy_signup Sample.kitchen
    = (Reply 400
         (errors_body
            [ entry "name" (Val "") "Name is required";
              entry "password" (Val "abc") "Password must be at least 6 characters long" ]),
       Sample.kitchen, []) ∧
  payload_of (post_signup (H:=Sample.libs) Sample.anonymous "salt" Sample.sloppy_signup
                Sample.kitchen).1.1
    ≠ Some (error_body "Email already exists").
Proof. repeat split; done. Qed.

(** C8 as stated fails: the stored row has a userId and a createdAt
    column (and NULL in imageUrl and categoryId), the 201 answer has none
    of the four. *)
Lemma create_response_is_not_the_row :
  let '(r, d', _) :=
    post_recipes (H:=Sample.libs) Sample.ann_req Sample.soup Sample.kitchen in
  r = Reply 201 (JObj [ ("id", JNum 2); ("title", JStr "Soup");
                        ("description", JStr "hot"); ("ingredients", JStr "water");
                        ("instructions", JStr "boil") ]) ∧
  recipes d' !! 2 = Some (Sample.soup_row 1) ∧
  member "userId" (recipe_json (2, Sample.soup_row 1)) = Some (JNum 1) ∧
  member "createdAt" (recipe_json (2, Sample.soup_row 1))
    = Some (JStr "2024-01-01 00:00:00") ∧
  member "imageUrl" (recipe_json (2, Sample.soup_row 1)) = Some JNull ∧
  (payload_of r ≫= member "userId") = None ∧
  (payload_of r ≫= member "createdAt") = None ∧
  (payload_of r ≫= member "imageUrl") = None.
Proof. vm_compute. repeat split; reflexivity. Qed.

(** C9 as stated fails: the recipe is created with title, description,
    ingredients and instructions, and the [GET] returns, next to those,
    the id and the timestamp, also a userId and two [null] members. *)
Lemma get_returns_more_than_given :
  let '(_, d', _) :=
    post_recipes (H:=Sample.libs) Sample.ann_req Sample.soup Sample.kitchen in
  let '(r, _, _) := get_recipe_by_id (H:=Sample.libs) Sample.ann_req "2" d' in
  b_imageUrl Sample.soup = Absent ∧ b_categoryId Sample.soup = Absent ∧
  status_of r = Some 200 ∧
  (keys <$> payload_of r)
    = Some [ "id"; "title"; "description"; "ingredients"; "instructions";
             "imageUrl"; "categoryId"; "userId"; "createdAt" ] ∧
  (payload_of r ≫= member "userId") = Some (JNum 1) ∧
  (payload_of r ≫= member "imageUrl") = Some JNull ∧
  (payload_of r ≫= member "categoryId") = Some JNull.
Proof. vm_compute. repeat split; reflexivity. Qed.

(** The scenario of the specification: sign up, log in, create a recipe,
    list the recipes. *)
Example signup_login_create_list :
  let '(r1, d1, _) :=
    post_signup (H:=Sample.libs) Sample.anonymous "salt" Sample.ann_signup empty_db in
  let '(r2, d2, _) := post_login (H:=Sample.libs) Sample.anonymous Sample.ann_login d1 in
  let '(r3, d3, _) := post_recipes (H:=Sample.libs) Sample.ann_req Sample.soup d2 in
  let '(r4, d4, _) := get_recipes (H:=Sample.libs) Sample.ann_req d3 in
  status_of r1 = Some 201 ∧
  r2 = Reply 200 (JObj [("token", JStr "jwt:i")]) ∧
  status_of r3 = Some 201 ∧ (payload_of r3 ≫= member "id") = Some (JNum 1) ∧
  r4 = Reply 200 (JArr [recipe_json (1, Sample.soup_row 1)]) ∧
  d4 = d3.
Proof. vm_compute. repeat split; reflexivity. Qed.

(** ** Further properties of the store and the routes *)

Section StoreEffects.
Context `{Libs}.

Lemma insert_user_inr name email password ts d id d' :
  insert_user name email password ts d = inr (id, d') →
  ∃ n e p,
    name = Some n ∧ email = Some e ∧ password = Some p ∧
    unknown_email d e ∧
    id = next_rowid (users_seq d) (users d) ∧
    d' = {| users := <[id := {| u_name := n; u_email := e; u_password := p;
                               u_createdAt := ts |}]> (users d);
            users_seq := id;
            recipes := recipes d;
            recipes_seq := recipes_seq d |}.
Proof.
  unfold insert_user.
  destruct name as [n|], email as [e|], password as [p|]; try done.
  destruct (select _ (users d)) eqn:Hsel; [|done].
  intros [= <- <-]. exists n, e, p. repeat split; try done.
  intros k u Hk. pose proof (proj1 (select_nil _ _) Hsel _ _ Hk) as E.
  simpl in E. by apply String.eqb_neq in E.
Qed.

Lemma insert_recipe_inr title description ingredients instructions imageUrl
    categoryId userId ts d id d' :
  insert_recipe title description ingredients instructions imageUrl categoryId
    userId ts d = inr (id, d') →
  ∃ t de ing ins,
    title = Some t ∧ description = Some de ∧
    ingredients = Some ing ∧ instructions = Some ins ∧
    id = next_rowid (recipes_seq d) (recipes d) ∧
    d' = {| users := users d;
            users_seq := users_seq d;
            recipes := <[id := {| r_title := t; r_description := de;
                                  r_ingredients := ing; r_instructions := ins;
                                  r_imageUrl := imageUrl; r_categoryId := categoryId;
                                  r_userId := userId; r_createdAt := ts |}]> (recipes d);
            recipes_seq := id |}.
Proof.
  unfold insert_recipe.
  destruct title as [t|], description as [de|], ingredients as [ing|],
    instructions as [ins|]; try done.
  intros [= <- <-]. by exists t, de, ing, ins.
Qed.

(** What an [UPDATE] that went through leaves in the table. *)
Lemma update_recipe_inr title description ingredients instructions categoryId
    imageUrl id userId d n d' :
  update_recipe title description ingredients instructions categoryId imageUrl
    id userId d = inr (n, d') →
  users d' = users d ∧ users_seq d' = users_seq d ∧
  recipes_seq d' = recipes_seq d ∧
  ∀ i, ∃ f : recipe_row -> recipe_row,
    recipes d' !! i = f <$> recipes d !! i ∧
    ∀ r, r_userId (f r) = r_userId r ∧ r_createdAt (f r) = r_createdAt r ∧
         (r_userId r ≠ userId → f r = r).
Proof.
  unfold update_recipe.
  destruct (select _ (recipes d)) as [|hit hits] eqn:Hsel.
  { intros [= <- <-]. repeat split. intros i. exists (fun r => r).
    split; [by destruct (recipes d !! i)|done]. }
  destruct title as [t|], description as [de|], ingredients as [ing|],
    instructions as [ins|]; try done.
  intros [= <- <-]. simpl. repeat split. intros i.
  eexists (fun r => if id_and_owner id userId i r then _ else r). split.
  - rewrite map_lookup_imap. by destruct (recipes d !! i).
  - intros r. unfold id_and_owner.
    destruct (rowid_of_text id) as [j|]; [|done].
    destruct (i =? j); simpl; [|done].
    destruct (r_userId r =? userId) eqn:E; [|done].
    apply Z.eqb_eq in E. repeat split; done.
Qed.

End StoreEffects.

Section RouteEffects.
Context `{Libs}.

(** What a request can do to the database: nothing, or the one write of
    its route, and then the reply is the success reply of that route. *)
Lemma serve_cases req c d r d' log :
  serve req c d = (r, d', log) →
  (d' = d ∧ (log = [] ∨ ∃ s, log = [s])) ∨
  (∃ name email password id,
     status_of r = Some 201 ∧ log = [InsertUser] ∧
     insert_user name email password (current_timestamp (now req)) d = inr (id, d')) ∨
  (∃ userId t de ing ins img cat id,
     authenticated req userId ∧ status_of r = Some 201 ∧ log = [InsertRecipe] ∧
     insert_recipe t de ing ins img cat userId (current_timestamp (now req)) d
     = inr (id, d')) ∨
  (∃ userId t de ing ins cat img id n,
     authenticated req userId ∧ status_of r = Some 200 ∧ log = [UpdateRecipe] ∧
     n ≠ 0%nat ∧
     update_recipe t de ing ins cat img id userId d = inr (n, d')).
Proof.
  destruct c as [salt b|b| |id|b|id b]; simpl.
  - unfold post_signup.
    destruct (signup_validation b); [|intros [= <- <- <-]; left; auto].
    destruct (s_password b) as [| |password];
      try (intros [= <- <- <-]; left; auto).
    unfold mbind, M_bind, run.
    destruct (insert_user _ _ _ _ d) as [err|[id d1]] eqn:Hins; simpl.
    + destruct (Js.includes _ _); intros [= <- <- <-]; left; eauto.
    + intros [= <- <- <-]. right. left. by eexists _, _, _, _.
  - unfold post_login.
    destruct (login_validation b); [|intros [= <- <- <-]; left; auto].
    unfold mbind, M_bind, query.
    destruct (get_user_by_email _ d) as [[id u]|];
      [|intros [= <- <- <-]; left; eauto].
    destruct (l_password b) as [| |password];
      try (intros [= <- <- <-]; left; eauto). simpl.
    destruct (negb (bcrypt_compare _ _)); intros [= <- <- <-]; left; eauto.
  - destruct (gate_cases req) as [[r0 Hr]|[userId Hauth]].
    + unfold get_recipes. rewrite (authenticateToken_rejected _ _ _ _ Hr).
      intros [= <- <- <-]. left. auto.
    + unfold get_recipes. rewrite (authenticateToken_next _ _ _ Hauth).
      unfold mbind, M_bind, query. intros [= <- <- <-]. left. eauto.
  - destruct (gate_cases req) as [[r0 Hr]|[userId Hauth]].
    + unfold get_recipe_by_id. rewrite (authenticateToken_rejected _ _ _ _ Hr).
      intros [= <- <- <-]. left. auto.
    + unfold get_recipe_by_id. rewrite (authenticateToken_next _ _ _ Hauth).
      unfold mbind, M_bind, query.
      destruct (get_recipe id userId d); intros [= <- <- <-]; left; eauto.
  - destruct (gate_cases req) as [[r0 Hr]|[userId Hauth]].
    + unfold post_recipes. rewrite (authenticateToken_rejected _ _ _ _ Hr).
      intros [= <- <- <-]. left. auto.
    + unfold post_recipes. rewrite (authenticateToken_next _ _ _ Hauth).
      destruct (recipe_validation b); [|intros [= <- <- <-]; left; auto].
      unfold mbind, M_bind, run.
      destruct (insert_recipe _ _ _ _ _ _ _ _ d) as [err|[id d1]] eqn:Hins; simpl.
      * intros [= <- <- <-]. left. eauto.
      * intros [= <- <- <-]. right. right. left.
        by eexists userId, _, _, _, _, _, _, _.
  - destruct (gate_cases req) as [[r0 Hr]|[userId Hauth]].
    + unfold put_recipe. rewrite (authenticateToken_rejected _ _ _ _ Hr).
      intros [= <- <- <-]. left. auto.
    + unfold put_recipe. rewrite (authenticateToken_next _ _ _ Hauth).
      unfold mbind, M_bind, run.
      destruct (update_recipe _ _ _ _ _ _ _ _ d) as [err|[n d1]] eqn:Hupd; simpl.
      * intros [= <- <- <-]. left. eauto.
      * destruct n as [|n]; simpl.
        -- intros [= <- <- <-]. left. split; [|eauto].
           unfold update_recipe in Hupd.
           destruct (select _ (recipes d)); [by injection Hupd as <-|].
           by destruct (bind_param (b_title b)), (bind_param (b_description b)),
             (bind_param (b_ingredients b)), (bind_param (b_instructions b)).
        -- intros [= <- <- <-]. right. right. right.
           by eexists userId, _, _, _, _, _, _, _, (S n).
Qed.

End RouteEffects.

Section Conservation.
Context `{Libs}.

(** X10. A request that is answered with a failure (status 400 or more,
    or no answer at all) leaves the database exactly as it was, on every
    route: only a 200 or 201 answer goes with a write. *)
Theorem failure_leaves_database (req : request) (c : call) (d : db) :
  failed (serve req c d).1.1 → (serve req c d).1.2 = d.
Proof.
  destruct (serve req c d) as [[r d'] log] eqn:E. simpl. intros Hfail.
  apply serve_cases in E as [[-> _]|[Hs|[Hs|Hs]]]; [done|..].
  - destruct Hs as (? & ? & ? & ? & Hst & _).
    destruct r as [s j|]; [|done]. injection Hst as ->. simpl in Hfail. lia.
  - destruct Hs as (? & ? & ? & ? & ? & ? & ? & ? & _ & Hst & _).
    destruct r as [s j|]; [|done]. injection Hst as ->. simpl in Hfail. lia.
  - destruct Hs as (? & ? & ? & ? & ? & ? & ? & ? & ? & _ & Hst & _).
    destruct r as [s j|]; [|done]. injection Hst as ->. simpl in Hfail. lia.
Qed.

(** X11. Whatever the request, a route sends at most one statement to
    the database. *)
Theorem one_statement_per_request (req : request) (c : call) (d : db) :
  (length (serve req c d).2 ≤ 1)%nat.
Proof.
  destruct (serve req c d) as [[r d'] log] eqn:E. simpl.
  apply serve_cases in E as [[_ [->|[s ->]]]|[Hs|[Hs|Hs]]]; simpl; try lia.
  - destruct Hs as (? & ? & ? & ? & _ & -> & _). simpl. lia.
  - destruct Hs as (? & ? & ? & ? & ? & ? & ? & ? & _ & _ & -> & _). simpl. lia.
  - destruct Hs as (? & ? & ? & ? & ? & ? & ? & ? & ? & _ & _ & -> & _). simpl. lia.
Qed.

Lemma serve_keeps_foreign_recipe req c d i r :
  recipes d !! i = Some r →
  (∀ userId, authenticated req userId → r_userId r ≠ userId) →
  recipes (serve req c d).1.2 !! i = Some r.
Proof.
  intros Hi Hforeign.
  destruct (serve req c d) as [[r0 d'] log] eqn:E. simpl.
  apply serve_cases in E as [[-> _]|[Hs|[Hs|Hs]]]; [done|..].
  - destruct Hs as (? & ? & ? & ? & _ & _ & Hins).
    apply insert_user_inr in Hins as (? & ? & ? & _ & _ & _ & _ & _ & ->). done.
  - destruct Hs as (? & ? & ? & ? & ? & ? & ? & id & _ & _ & _ & Hins).
    apply insert_recipe_inr in Hins as (? & ? & ? & ? & _ & _ & _ & _ & Hid & ->).
    simpl. rewrite lookup_insert_ne; [done|].
    intros <-. rewrite Hid, next_rowid_fresh in Hi. done.
  - destruct Hs as (userId & ? & ? & ? & ? & ? & ? & ? & ? & Hauth & _ & _ & _ & Hupd).
    apply update_recipe_inr in Hupd as (_ & _ & _ & Hrows).
    destruct (Hrows i) as (f & -> & Hf). rewrite Hi. simpl. f_equal.
    apply Hf. by apply Hforeign.
Qed.

(** X6. No request changes a recipe of another user: after any sequence
    of requests none of which carries a token that binds the owner of a
    row, on whatever routes and with whatever bodies, the row is stored
    under its id exactly as it was. *)
Theorem foreign_recipes_untouched (calls : list (request * call)) (d : db)
    (i : Z) (r : recipe_row) :
  recipes d !! i = Some r →
  (∀ req c, (req, c) ∈ calls → ¬ authenticated req (r_userId r)) →
  recipes (serve_all calls d) !! i = Some r.
Proof.
  revert d. induction calls as [|[req c] rest IH]; intros d Hi Hothers; [done|].
  simpl. apply IH.
  - apply serve_keeps_foreign_recipe; [done|].
    intros userId Hauth <-. apply (Hothers req c); [left|done].
  - intros req' c' Hin. apply (Hothers req' c'). by right.
Qed.

(** One request keeps every stored recipe, with its owner and its
    creation time. *)
Lemma serve_keeps_recipe req c d i r :
  recipes d !! i = Some r →
  ∃ r', recipes (serve req c d).1.2 !! i = Some r' ∧
        r_userId r' = r_userId r ∧ r_createdAt r' = r_createdAt r.
Proof.
  intros Hi.
  destruct (serve req c d) as [[r0 d'] log] eqn:E. simpl.
  apply serve_cases in E as [[-> _]|[Hs|[Hs|Hs]]]; [by exists r|..].
  - destruct Hs as (? & ? & ? & ? & _ & _ & Hins).
    apply insert_user_inr in Hins as (? & ? & ? & _ & _ & _ & _ & _ & ->).
    by exists r.
  - destruct Hs as (? & ? & ? & ? & ? & ? & ? & id & _ & _ & _ & Hins).
    apply insert_recipe_inr in Hins as (? & ? & ? & ? & _ & _ & _ & _ & Hid & ->).
    exists r. simpl. rewrite lookup_insert_ne; [done|].
    intros <-. rewrite Hid, next_rowid_fresh in Hi. done.
  - destruct Hs as (userId & ? & ? & ? & ? & ? & ? & ? & ? & _ & _ & _ & _ & Hupd).
    apply update_recipe_inr in Hupd as (_ & _ & _ & Hrows).
    destruct (Hrows i) as (f & -> & Hf). rewrite Hi. simpl.
    exists (f r). split; [done|]. by destruct (Hf r) as (? & ? & _).
Qed.

(** X7. A recipe is never deleted and never changes hands: after any
    sequence of requests a stored recipe is still stored under its id,
    with the owner and the creation time it had. *)
Theorem recipe_identity_is_permanent (calls : list (request * call)) (d : db)
    (i : Z) (r : recipe_row) :
  recipes d !! i = Some r →
  ∃ r', recipes (serve_all calls d) !! i = Some r' ∧
        r_userId r' = r_userId r ∧ r_createdAt r' = r_createdAt r.
Proof.
  revert d r. induction calls as [|[req c] rest IH]; intros d r Hi.
  - by exists r.
  - simpl. destruct (serve_keeps_recipe req c d i r Hi) as (r1 & H1 & Ho & Ht).
    destruct (IH _ _ H1) as (r' & Hr' & Ho' & Ht').
    exists r'. split; [done|]. split; congruence.
Qed.

Lemma serve_keeps_user req c d i u :
  users d !! i = Some u → users (serve req c d).1.2 !! i = Some u.
Proof.
  intros Hi.
  destruct (serve req c d) as [[r0 d'] log] eqn:E. simpl.
  apply serve_cases in E as [[-> _]|[Hs|[Hs|Hs]]]; [done|..].
  - destruct Hs as (? & ? & ? & id & _ & _ & Hins).
    apply insert_user_inr in Hins as (? & ? & ? & _ & _ & _ & _ & Hid & ->).
    simpl. rewrite lookup_insert_ne; [done|].
    intros <-. rewrite Hid, next_rowid_fresh in Hi. done.
  - destruct Hs as (? & ? & ? & ? & ? & ? & ? & id & _ & _ & _ & Hins).
    apply insert_recipe_inr in Hins as (? & ? & ? & ? & _ & _ & _ & _ & _ & ->).
    done.
  - destruct Hs as (userId & ? & ? & ? & ? & ? & ? & ? & ? & _ & _ & _ & _ & Hupd).
    apply update_recipe_inr in Hupd as (-> & _). done.
Qed.

(** X8. A user row is never changed and never deleted: after any
    sequence of requests a stored user is stored under the same id with
    the same name, email, password hash and creation time. *)
Theorem users_are_permanent (calls : list (request * call)) (d : db)
    (i : Z) (u : user_row) :
  users d !! i = Some u → users (serve_all calls d) !! i = Some u.
Proof.
  revert d. induction calls as [|[req c] rest IH]; intros d Hi; [done|].
  simpl. apply IH. by apply serve_keeps_user.
Qed.

End Conservation.

Section ScanOrder.
Context {A : Type}.
Implicit Types (t : gmap Z A) (p : Z -> A -> bool).

#[local] Instance by_rowid_total : Total (@by_rowid A).
Proof. intros x y. unfold by_rowid. lia. Qed.

#[local] Instance by_rowid_trans : Transitive (@by_rowid A).
Proof. intros x y z. unfold by_rowid. lia. Qed.




End ScanOrder.

Section Listing.
Context `{Libs}.

Lemma get_recipes_authenticated req userId d :
  authenticated req userId →
  get_recipes req d
  = (Reply 200 (JArr (map recipe_json (all_recipes_of userId d))), d,
     [SelectRecipesByUser]).
Proof.
  intros Hauth. unfold get_recipes.
  by rewrite (authenticateToken_next _ _ _ Hauth).
Qed.

(** X1. [GET /recipes] answers an authenticated caller 200 with the
    caller's recipes and nothing else: a row is in the list exactly when
    it is stored and owned by the caller, no row is listed twice, and the
    database is only read.  A caller who owns nothing gets the empty
    list. *)
Theorem list_is_owner_scoped (req : request) (userId : Z) (d : db) :
  authenticated req userId →
  ∃ rows,
    get_recipes req d
    = (Reply 200 (JArr (map recipe_json rows)), d, [SelectRecipesByUser]) ∧
    (∀ i r, (i, r) ∈ rows ↔ recipes d !! i = Some r ∧ r_userId r = userId) ∧
    NoDup rows ∧
    ((∀ i r, recipes d !! i = Some r → r_userId r ≠ userId) → rows = []).
Proof.
  intros Hauth. exists (all_recipes_of userId d).
  split; [by apply get_recipes_authenticated|].
  unfold all_recipes_of. split; [|split].
  - intros i r. rewrite elem_of_select. by rewrite Z.eqb_eq.
  - apply NoDup_select.
  - intros Hnone. apply select_nil. intros k r Hk.
    apply Z.eqb_neq. by apply (Hnone k).
Qed.

(** X2. After a successful [POST /recipes], [GET /recipes] by the same
    user returns the rows it returned before and the new recipe, as
    stored, each once and nothing else. *)
Theorem create_then_list (req req' : request) (userId : Z) (b : recipe_body)
    (title description ingredients instructions : string) (d : db) :
  authenticated req userId → authenticated req' userId →
  valid_recipe b title description ingredients instructions →
  ∃ id d' before after,
    get_recipes req' d
    = (Reply 200 (JArr (map recipe_json before)), d, [SelectRecipesByUser]) ∧
    post_recipes req b d
    = (Reply 201 (echoed b title description ingredients instructions id), d',
       [InsertRecipe]) ∧
    get_recipes req' d'
    = (Reply 200 (JArr (map recipe_json after)), d', [SelectRecipesByUser]) ∧
    after ≡ₚ (id, created b title description ingredients instructions userId
                    (current_timestamp (now req))) :: before.
Proof.
  intros Hauth Hauth' Hv.
  eexists _, _, (all_recipes_of userId d), _.
  split; [by apply get_recipes_authenticated|].
  split; [by apply (post_recipes_created req userId)|].
  split; [by apply get_recipes_authenticated|].
  unfold all_recipes_of. simpl.
  pose proof (next_rowid_fresh (recipes_seq d) (recipes d)) as Hfresh.
  apply NoDup_Permutation.
  - apply NoDup_select.
  - apply NoDup_cons. split; [|apply NoDup_select].
    intros [Hin _]%elem_of_select. congruence.
  - intros [k v]. rewrite elem_of_cons, !elem_of_select, lookup_insert.
    simpl. split.
    + intros [Hk Ho]. case_decide as Hid.
      * left. congruence.
      * right. done.
    + intros [[= -> ->]|[Hk Ho]].
      * rewrite decide_True by done. split; [done|]. simpl. apply Z.eqb_refl.
      * rewrite decide_False; [done|]. intros <-. congruence.
Qed.

End Listing.

Lemma list_is_owner_scoped_witness :
  authenticated (H:=Sample.libs) Sample.ann_req 1 ∧
  ∃ rows,
    get_recipes (H:=Sample.libs) Sample.ann_req Sample.kitchen
      = (Reply 200 (JArr (map recipe_json rows)), Sample.kitchen,
         [SelectRecipesByUser]) ∧
    (1, Sample.soup_row 1) ∈ rows.
Proof.
  split; [exact ann_authenticated|].
  destruct (list_is_owner_scoped (H:=Sample.libs) Sample.ann_req 1 Sample.kitchen
              ann_authenticated) as (rows & Hrun & Hin & _).
  exists rows. split; [exact Hrun|]. by apply Hin.
Defined.

Lemma create_then_list_witness :
  (authenticated (H:=Sample.libs) Sample.ann_req 1 ∧
   valid_recipe Sample.soup "Soup" "hot" "water" "boil") ∧
  ∃ id d' before after,
    get_recipes (H:=Sample.libs) Sample.ann_req Sample.kitchen
      = (Reply 200 (JArr (map recipe_json before)), Sample.kitchen,
         [SelectRecipesByUser]) ∧
    post_recipes (H:=Sample.libs) Sample.ann_req Sample.soup Sample.kitchen
      = (Reply 201 (echoed Sample.soup "Soup" "hot" "water" "boil" id), d',
         [InsertRecipe]) ∧
    get_recipes (H:=Sample.libs) Sample.ann_req d'
      = (Reply 200 (JArr (map recipe_json after)), d', [SelectRecipesByUser]) ∧
    after ≡ₚ (id, Sample.soup_row 1) :: before.
Proof.
  assert (valid_recipe Sample.soup "Soup" "hot" "water" "boil") as Hv
    by (repeat split; done).
  split; [by auto using ann_authenticated|].
  exact (create_then_list (H:=Sample.libs) Sample.ann_req Sample.ann_req 1
           Sample.soup "Soup" "hot" "water" "boil" Sample.kitchen
           ann_authenticated ann_authenticated Hv).
Defined.

Section ReadAndUpdate.
Context `{Libs}.

Lemma matched_or_unmatched id userId d :
  unmatched id userId d ∨
  ∃ i r, rowid_of_text id = Some i ∧ recipes d !! i = Some r ∧ r_userId r = userId.
Proof.
  destruct (rowid_of_text id) as [i|] eqn:Hid;
    [|left; intros j r' Hj; congruence].
  destruct (recipes d !! i) as [r|] eqn:Hi.
  - destruct (decide (r_userId r = userId)) as [Ho|Ho].
    + right. by exists i, r.
    + left. intros j r' Hj Hr' E. congruence.
  - left. intros j r' Hj Hr'. congruence.
Qed.

Lemma required_fields_cases b :
  (∃ title description ingredients instructions,
     b_title b = Val title ∧ b_description b = Val description ∧
     b_ingredients b = Val ingredients ∧ b_instructions b = Val instructions) ∨
  (missing (b_title b) ∨ missing (b_description b) ∨
   missing (b_ingredients b) ∨ missing (b_instructions b)).
Proof.
  unfold missing.
  destruct (b_title b), (b_description b), (b_ingredients b), (b_instructions b);
    eauto 10.
Qed.

(** X3. [GET /recipes/:id] answers an authenticated caller in one of two
    ways: 200 with the nine columns of the stored row when the id denotes
    a row the caller owns, 404 "Recipe not found" when it does not; in
    both cases the database is only read. *)
Theorem get_by_id_answers (req : request) (userId : Z) (id : string) (d : db) :
  authenticated req userId →
  (∃ i r,
     rowid_of_text id = Some i ∧ recipes d !! i = Some r ∧ r_userId r = userId ∧
     get_recipe_by_id req id d
     = (Reply 200 (recipe_json (i, r)), d, [SelectRecipeById])) ∨
  (unmatched id userId d ∧
   get_recipe_by_id req id d
   = (Reply 404 (error_body "Recipe not found"), d, [SelectRecipeById])).
Proof.
  intros Hauth.
  destruct (matched_or_unmatched id userId d) as [Hno|(i & r & Hid & Hi & Ho)].
  - right. split; [done|]. by apply (get_recipe_by_id_unmatched req userId).
  - left. exists i, r. repeat split; try done.
    by apply (get_recipe_by_id_owned req userId).
Qed.

Lemma overwritten_twice r t de ing ins b :
  overwritten (overwritten r t de ing ins b) t de ing ins b
  = overwritten r t de ing ins b.
Proof. done. Qed.

(** X4. [PUT /recipes/:id] is idempotent: sending the same update again,
    by the same user, gets the same answer and leaves the database as the
    first update left it, whether the first one succeeded (200), found no
    row (404) or was refused by the store (500). *)
Theorem put_is_idempotent (req req' : request) (userId : Z) (id : string)
    (b : recipe_body) (d : db) :
  authenticated req userId → authenticated req' userId →
  put_recipe req' id b (put_recipe req id b d).1.2 = put_recipe req id b d.
Proof.
  intros Hauth Hauth'.
  destruct (matched_or_unmatched id userId d) as [Hno|(i & r & Hid & Hi & Ho)].
  { rewrite (put_recipe_unmatched req userId id b d Hauth Hno). simpl.
    by apply (put_recipe_unmatched req' userId). }
  destruct (required_fields_cases b)
    as [(t & de & ing & ins & Ht & Hde & Hing & Hins)|Hmiss].
  - rewrite (put_recipe_owned req userId id i r b d t de ing ins) by done. simpl.
    rewrite (put_recipe_owned req' userId id i (overwritten r t de ing ins b) b
               _ t de ing ins); try done.
    + simpl. by rewrite insert_insert_eq.
    + simpl. apply lookup_insert_eq.
  - rewrite (put_recipe_not_null req userId id i r b d) by done. simpl.
    by apply (put_recipe_not_null req' userId id i r).
Qed.

(** X5. After a [PUT /recipes/:id] that succeeded, [GET /recipes/:id] by
    the same user returns the values the update wrote (null for an
    optional key the body left out), under the id, the owner and the
    creation time the row had before. *)
Theorem put_then_get (req req' : request) (userId : Z) (id : string) (i : Z)
    (r : recipe_row) (b : recipe_body)
    (title description ingredients instructions : string) (d : db) :
  authenticated req userId → authenticated req' userId →
  rowid_of_text id = Some i → recipes d !! i = Some r → r_userId r = userId →
  b_title b = Val title → b_description b = Val description →
  b_ingredients b = Val ingredients → b_instructions b = Val instructions →
  ∃ d',
    put_recipe req id b d
    = (Reply 200 (JObj [("message", JStr "Recipe updated successfully")]), d',
       [UpdateRecipe]) ∧
    get_recipe_by_id req' id d'
    = (Reply 200 (updated_json i r title description ingredients instructions b),
       d', [SelectRecipeById]).
Proof.
  intros Hauth Hauth' Hid Hi Ho Ht Hde Hing Hins. eexists.
  split; [by apply (put_recipe_owned req userId id i r)|].
  apply (get_recipe_by_id_owned req' userId id i
           (overwritten r title description ingredients instructions b));
    [done|done| |done].
  simpl. apply lookup_insert_eq.
Qed.

End ReadAndUpdate.

Section Accounts.
Context `{Libs}.

(** X12. A user who has signed up can log in: after a successful signup,
    a login with the same email and password is answered 200 with a
    token issued for the id the signup returned, provided bcrypt's
    [compare] accepts the hash that bcrypt's [hash] made of that
    password.  (The password has six characters or more by validator.js's
    count, which the model leaves to the library; that it is not the
    empty text, as the login's own validator requires, is stated
    apart.) *)
Theorem signup_then_login (req req' : request) (salt : string) (b : signup_body)
    (name email password : string) (d : db) :
  valid_signup b name email password → unknown_email d email →
  password ≠ "" →
  bcrypt_compare password (bcrypt_hash password 10 salt) = true →
  ∃ id d',
    post_signup req salt b d
    = (Reply 201 (JObj [ ("id", JNum id); ("name", JStr name);
                         ("email", JStr email);
                         ("token", JStr (jwt_sign id secret 3600 (now req))) ]),
       d', [InsertUser]) ∧
    post_login req' (login_of email password) d'
    = (Reply 200 (JObj [("token", JStr (generateToken id (now req')))]), d',
       [SelectUserByEmail]).
Proof.
  intros Hv Hno Hne Hcmp. eexists _, _.
  split; [by apply post_signup_created|].
  destruct Hv as (_ & _ & _ & Hemail & _ & Hlen).
  assert (valid_login (login_of email password) email password) as Hvl
    by (by repeat split).
  set (id := next_rowid (users_seq d) (users d)).
  set (u := {| u_name := name; u_email := email;
               u_password := bcrypt_hash password 10 salt;
               u_createdAt := current_timestamp (now req) |}).
  match goal with
  | |- post_login _ _ ?d1 = _ => assert (sole_user d1 email id u) as Hsole
  end.
  { split; [apply lookup_insert_eq|]. split; [done|].
    intros id' u'. simpl. rewrite lookup_insert.
    case_decide; [done|]. intros Hk He. by destruct (Hno _ _ Hk). }
  rewrite (post_login_known req' _ _ email password id u Hvl Hsole).
  simpl. by rewrite Hcmp.
Qed.

(** X13. The answer to a well-formed login tells whether the email is
    registered: the status is 404 exactly when no stored user has the
    email (a wrong password for a registered email is answered 401). *)
Theorem login_tells_unknown_email (req : request) (b : login_body)
    (email password : string) (d : db) :
  valid_login b email password →
  (status_of (post_login req b d).1.1 = Some 404 ↔ unknown_email d email).
Proof.
  intros Hv. split.
  - unfold post_login. rewrite (login_validation_valid _ _ _ Hv).
    destruct Hv as (He & _ & Hp & _). rewrite He, Hp. simpl.
    unfold mbind, M_bind, query, get_user_by_email.
    destruct (select _ (users d)) as [|[id u] l] eqn:Hsel; simpl.
    + intros _ k u Hk. pose proof (proj1 (select_nil _ _) Hsel _ _ Hk) as E.
      simpl in E. by apply String.eqb_neq in E.
    + by destruct (negb (bcrypt_compare password (u_password u))).
  - intros Hno. by rewrite (post_login_unknown _ _ _ _ _ Hv Hno).
Qed.

(** X15. A login body with an email that is not well formed or with an
    empty password is answered 400 with one entry for each of the two
    fields that fails, and the users table is not queried. *)
Theorem login_validation_first (req : request) (b : login_body) (d : db) :
  isEmail (toString (l_email b)) = false ∨ empty (l_password b) →
  ∃ errors,
    post_login req b d = (Reply 400 (errors_body errors), d, []) ∧
    (∀ e, e ∈ errors ↔
       (e = entry "email" (l_email b) "Invalid email" ∧
        isEmail (toString (l_email b)) = false) ∨
       (e = entry "password" (l_password b) "Password is required" ∧
        empty (l_password b))) ∧
    NoDup (ve_path <$> errors).
Proof.
  intros Hbad. exists (login_validation b).
  assert (∀ e, e ∈ login_validation b ↔
            (e = entry "email" (l_email b) "Invalid email" ∧
             isEmail (toString (l_email b)) = false) ∨
            (e = entry "password" (l_password b) "Password is required" ∧
             empty (l_password b))) as Hentries.
  { intros e. unfold login_validation, chain, entry.
    rewrite <- notEmpty_false.
    destruct (isEmail (toString (l_email b))), (notEmpty (l_password b)); simpl;
      rewrite ?elem_of_cons, ?elem_of_nil; intuition congruence. }
  split; [|split; [done|]].
  - apply post_login_invalid. intros E.
    assert (∃ e, e ∈ login_validation b) as [e He].
    { destruct Hbad as [Hm|Hp]; eexists; apply Hentries; [left|right]; eauto. }
    rewrite E in He. by apply elem_of_nil in He.
  - unfold login_validation, chain.
    destruct (isEmail (toString (l_email b))), (notEmpty (l_password b)); simpl;
      repeat (apply NoDup_cons; split;
              [rewrite ?elem_of_cons, ?elem_of_nil; intuition discriminate|]);
      apply NoDup_nil_2.
Qed.

End Accounts.

Section BearerHeader.
Context `{Libs}.

Lemma strip_prefix_app p s : Js.strip_prefix p (String.append p s) = Some s.
Proof.
  induction p as [|c p IH]; simpl; [done|]. by rewrite Ascii.eqb_refl.
Qed.

Lemma remove_first_unfold p s :
  Js.remove_first p s =
    match Js.strip_prefix p s with
    | Some rest => rest
    | None =>
        match s with
        | EmptyString => EmptyString
        | String c s' => String c (Js.remove_first p s')
        end
    end.
Proof. by destruct s. Qed.

Lemma includes_unfold p s :
  Js.includes p s =
    match Js.strip_prefix p s with
    | Some _ => true
    | None =>
        match s with
        | EmptyString => false
        | String _ s' => Js.includes p s'
        end
    end.
Proof. by destruct s. Qed.

Lemma remove_first_app p s : Js.remove_first p (String.append p s) = s.
Proof. by rewrite remove_first_unfold, strip_prefix_app. Qed.

Lemma remove_first_absent p s : Js.includes p s = false → Js.remove_first p s = s.
Proof.
  induction s as [|c s IH]; rewrite includes_unfold, remove_first_unfold;
    destruct (Js.strip_prefix p _); try done.
  intros Hs. by rewrite IH.
Qed.

(** X14. The credential of a request is what is left of the
    [Authorization] header once the first ["Bearer "] is taken out: a
    header ["Bearer " ++ t] presents exactly [t], and a header that does
    not contain ["Bearer "] is taken whole as the token, so that a bare
    token is authenticated exactly as the same token behind the scheme. *)
Theorem bearer_scheme_is_optional (token : string) (clock : Z) (next : Z -> M reply) :
  bearer (with_header (String.append "Bearer " token) clock) = Some token ∧
  (Js.includes "Bearer " token = false →
   bearer (with_header token clock) = Some token ∧
   authenticateToken (with_header token clock) next
   = authenticateToken (with_header (String.append "Bearer " token) clock) next).
Proof.
  assert (bearer (with_header (String.append "Bearer " token) clock) = Some token)
    as Hb.
  { unfold bearer, with_header. cbn [authorization fmap option_fmap option_map].
    by rewrite remove_first_app. }
  split; [done|]. intros Habsent.
  assert (bearer (with_header token clock) = Some token) as Hb'.
  { unfold bearer, with_header. cbn [authorization fmap option_fmap option_map].
    by rewrite remove_first_absent. }
  split; [done|]. unfold authenticateToken. by rewrite Hb, Hb'.
Qed.

End BearerHeader.

Section Sessions.
Context `{Libs}.

(** X17. Logging in opens a session for the user who logged in: when
    the login succeeds, a [GET /recipes] that sends the returned token as
    ["Bearer " ++ token] is answered 200 with the recipes owned by the
    user whose row matched the email, provided [jwt.verify] accepts that
    token at the time of the second request (the server signs and
    verifies with the same secret). *)
Theorem login_opens_session (req : request) (b : login_body)
    (email password : string) (d : db) (id : Z) (u : user_row) (clock : Z) :
  valid_login b email password → sole_user d email id u →
  bcrypt_compare password (u_password u) = true →
  generateToken id (now req) ≠ "" →
  jwt_verify (generateToken id (now req)) secret clock = Some id →
  post_login req b d
  = (Reply 200 (JObj [("token", JStr (generateToken id (now req)))]), d,
     [SelectUserByEmail]) ∧
  get_recipes
    (with_header (String.append "Bearer " (generateToken id (now req))) clock) d
  = (Reply 200 (JArr (map recipe_json (all_recipes_of id d))), d,
     [SelectRecipesByUser]).
Proof.
  intros Hv Hsole Hcmp Hne Hverify. split.
  - rewrite (post_login_known _ _ _ _ _ _ _ Hv Hsole). by rewrite Hcmp.
  - apply get_recipes_authenticated.
    exists (generateToken id (now req)). split; [split; [|done]|done].
    unfold bearer, with_header. cbn [authorization fmap option_fmap option_map].
    by rewrite remove_first_app.
Qed.

(** X18. An email can be registered once: after a successful signup, a
    second signup with the same email, whatever valid name and password
    it carries, is answered 400 "Email already exists" and adds no
    user. *)
Theorem signup_twice (req req' : request) (salt salt' : string)
    (b b' : signup_body) (name name' email password password' : string) (d : db) :
  valid_signup b name email password → unknown_email d email →
  valid_signup b' name' email password' →
  ∃ r d',
    post_signup req salt b d = (r, d', [InsertUser]) ∧
    status_of r = Some 201 ∧
    post_signup req' salt' b' d'
    = (Reply 400 (error_body "Email already exists"), d', [InsertUser]).
Proof.
  intros Hv Hno Hv'. eexists _, _.
  split; [by apply post_signup_created|]. split; [done|].
  eapply post_signup_taken; [exact Hv'| |].
  - simpl. apply lookup_insert_eq.
  - done.
Qed.

End Sessions.

Section Views.
Context `{Libs}.



End Views.

(** ** The further properties at concrete requests *)

Lemma bob_is_not_ann : ¬ authenticated (H:=Sample.libs) Sample.bob_req 1.
Proof.
  intros (token & [Hb _] & Hv). vm_compute in Hb. injection Hb as <-.
  vm_compute in Hv. done.
Qed.

Lemma get_by_id_answers_witness :
  authenticated (H:=Sample.libs) Sample.ann_req 1 ∧
  get_recipe_by_id (H:=Sample.libs) Sample.ann_req "1" Sample.kitchen
    = (Reply 200 (recipe_json (1, Sample.soup_row 1)), Sample.kitchen,
       [SelectRecipeById]).
Proof.
  split; [exact ann_authenticated|].
  destruct (get_by_id_answers (H:=Sample.libs) Sample.ann_req 1 "1" Sample.kitchen
              ann_authenticated)
    as [(i & r & Hid & Hi & _ & Hrun)|[Hno _]].
  - vm_compute in Hid. injection Hid as <-.
    vm_compute in Hi. injection Hi as <-. exact Hrun.
  - by destruct (Hno 1 (Sample.soup_row 1)).
Defined.

Lemma put_is_idempotent_witness :
  authenticated (H:=Sample.libs) Sample.ann_req 1 ∧
  put_recipe (H:=Sample.libs) Sample.ann_req "1" Sample.blank_title
    (put_recipe (H:=Sample.libs) Sample.ann_req "1" Sample.blank_title
       Sample.kitchen).1.2
  = put_recipe (H:=Sample.libs) Sample.ann_req "1" Sample.blank_title Sample.kitchen.
Proof.
  split; [exact ann_authenticated|].
  exact (put_is_idempotent (H:=Sample.libs) Sample.ann_req Sample.ann_req 1 "1"
           Sample.blank_title Sample.kitchen ann_authenticated ann_authenticated).
Defined.

Lemma put_then_get_witness :
  (authenticated (H:=Sample.libs) Sample.ann_req 1 ∧
   Sample.rowid "1" = Some 1 ∧
   recipes Sample.kitchen !! 1 = Some (Sample.soup_row 1) ∧
   b_title Sample.blank_title = Val "") ∧
  ∃ d',
    put_recipe (H:=Sample.libs) Sample.ann_req "1" Sample.blank_title Sample.kitchen
      = (Reply 200 (JObj [("message", JStr "Recipe updated successfully")]), d',
         [UpdateRecipe]) ∧
    get_recipe_by_id (H:=Sample.libs) Sample.ann_req "1" d'
      = (Reply 200
           (updated_json 1 (Sample.soup_row 1) "" "cold" "ice" "wait"
              Sample.blank_title),
         d', [SelectRecipeById]).
Proof.
  split; [by auto using ann_authenticated|].
  exact (put_then_get (H:=Sample.libs) Sample.ann_req Sample.ann_req 1 "1" 1
           (Sample.soup_row 1) Sample.blank_title "" "cold" "ice" "wait"
           Sample.kitchen ann_authenticated ann_authenticated
           eq_refl eq_refl eq_refl eq_refl eq_refl eq_refl eq_refl).
Defined.

Lemma foreign_recipes_untouched_witness :
  recipes Sample.kitchen !! 1 = Some (Sample.soup_row 1) ∧
  recipes
    (serve_all (H:=Sample.libs)
       [ (Sample.bob_req, PutRecipe "1" Sample.blank_title);
         (Sample.bob_req, PostRecipes Sample.soup);
         (Sample.anonymous, PutRecipe "1" Sample.blank_title) ]
       Sample.kitchen) !! 1
  = Some (Sample.soup_row 1).
Proof.
  split; [reflexivity|].
  apply (foreign_recipes_untouched (H:=Sample.libs)); [reflexivity|].
  intros req c Hin. simpl.
  assert (req = Sample.bob_req ∨ req = Sample.anonymous) as [->| ->].
  { repeat (apply elem_of_cons in Hin as [[= -> _]|Hin]; [by auto|]).
    by apply elem_of_nil in Hin. }
  - exact bob_is_not_ann.
  - intros (token & [Hb _] & _). done.
Defined.

Lemma recipe_identity_is_permanent_witness :
  recipes Sample.kitchen !! 1 = Some (Sample.soup_row 1) ∧
  ∃ r',
    recipes
      (serve_all (H:=Sample.libs)
         [ (Sample.ann_req, PutRecipe "1" Sample.blank_title) ]
         Sample.kitchen) !! 1 = Some r' ∧
    r_userId r' = 1 ∧ r_createdAt r' = "2024-01-01 00:00:00".
Proof.
  split; [reflexivity|].
  exact (recipe_identity_is_permanent (H:=Sample.libs)
           [ (Sample.ann_req, PutRecipe "1" Sample.blank_title) ]
           Sample.kitchen 1 (Sample.soup_row 1) eq_refl).
Defined.

Lemma users_are_permanent_witness :
  users Sample.kitchen !! 1 = Some Sample.ann ∧
  users
    (serve_all (H:=Sample.libs)
       [ (Sample.anonymous, PostSignup "salt" Sample.second_signup);
         (Sample.ann_req, PutRecipe "1" Sample.blank_title) ]
       Sample.kitchen) !! 1
  = Some Sample.ann.
Proof.
  split; [reflexivity|].
  exact (users_are_permanent (H:=Sample.libs) _ Sample.kitchen 1 Sample.ann eq_refl).
Defined.

Lemma failure_leaves_database_witness :
  failed (serve (H:=Sample.libs) Sample.bob_req (PutRecipe "1" Sample.soup)
            Sample.kitchen).1.1 ∧
  (serve (H:=Sample.libs) Sample.bob_req (PutRecipe "1" Sample.soup)
     Sample.kitchen).1.2 = Sample.kitchen.
Proof.
  assert (failed (serve (H:=Sample.libs) Sample.bob_req (PutRecipe "1" Sample.soup)
                    Sample.kitchen).1.1) as Hfail by (vm_compute; discriminate).
  split; [exact Hfail|].
  exact (failure_leaves_database (H:=Sample.libs) _ _ _ Hfail).
Defined.

Lemma signup_then_login_witness :
  (valid_signup (H:=Sample.libs) Sample.ann_signup "A" "a@x.com" "secret1" ∧
   bcrypt_compare (Libs:=Sample.libs) "secret1"
     (bcrypt_hash (Libs:=Sample.libs) "secret1" 10 "salt") = true) ∧
  ∃ id d',
    post_signup (H:=Sample.libs) Sample.anonymous "salt" Sample.ann_signup empty_db
      = (Reply 201 (JObj [ ("id", JNum id); ("name", JStr "A");
                           ("email", JStr "a@x.com");
                           ("token", JStr (jwt_sign (Libs:=Sample.libs) id secret 3600 0)) ]),
         d', [InsertUser]) ∧
    post_login (H:=Sample.libs) Sample.anonymous (login_of "a@x.com" "secret1") d'
      = (Reply 200 (JObj [("token", JStr (generateToken (H:=Sample.libs) id 0))]), d',
         [SelectUserByEmail]).
Proof.
  assert (valid_signup (H:=Sample.libs) Sample.ann_signup "A" "a@x.com" "secret1") as Hv
    by (repeat split; try done; simpl; lia).
  split; [by split|].
  exact (signup_then_login (H:=Sample.libs) Sample.anonymous Sample.anonymous "salt"
           Sample.ann_signup "A" "a@x.com" "secret1" empty_db Hv
           (empty_db_unknown _) ltac:(discriminate) eq_refl).
Defined.

Lemma login_tells_unknown_email_witness :
  valid_login (H:=Sample.libs) Sample.ann_login "a@x.com" "secret1" ∧
  (status_of (post_login (H:=Sample.libs) Sample.anonymous Sample.ann_login
                empty_db).1.1 = Some 404
   ↔ unknown_email empty_db "a@x.com").
Proof.
  assert (valid_login (H:=Sample.libs) Sample.ann_login "a@x.com" "secret1") as Hv
    by (repeat split; done).
  split; [exact Hv|].
  exact (login_tells_unknown_email (H:=Sample.libs) Sample.anonymous Sample.ann_login
           "a@x.com" "secret1" empty_db Hv).
Defined.

Lemma bearer_scheme_is_optional_witness :
  Js.includes "Bearer " "jwt:i" = false ∧
  authenticateToken (H:=Sample.libs) (with_header "jwt:i" 0)
    (fun userId => mret (Reply 200 (JNum userId)))
  = authenticateToken (H:=Sample.libs) (with_header "Bearer jwt:i" 0)
      (fun userId => mret (Reply 200 (JNum userId))).
Proof.
  split; [reflexivity|].
  exact (proj2 (proj2 (bearer_scheme_is_optional (H:=Sample.libs) "jwt:i" 0 _)
                  eq_refl)).
Defined.

Lemma login_validation_first_witness :
  isEmail (Libs:=Sample.libs) (toString (l_email Sample.nobody_login)) = false ∧
  ∃ errors,
    post_login (H:=Sample.libs) Sample.anonymous Sample.nobody_login Sample.kitchen
      = (Reply 400 (errors_body errors), Sample.kitchen, []) ∧
    entry "email" (Val "nobody") "Invalid email" ∈ errors.
Proof.
  split; [reflexivity|].
  destruct (login_validation_first (H:=Sample.libs) Sample.anonymous
              Sample.nobody_login Sample.kitchen (or_introl eq_refl))
    as (errors & Hrun & Hentries & _).
  exists errors. split; [exact Hrun|]. apply Hentries. left. by split.
Defined.

Lemma login_opens_session_witness :
  (valid_login (H:=Sample.libs) Sample.ann_login "a@x.com" "secret1" ∧
   sole_user Sample.kitchen "a@x.com" 1 Sample.ann ∧
   jwt_verify (Libs:=Sample.libs) (generateToken (H:=Sample.libs) 1 0) secret 5
     = Some 1) ∧
  post_login (H:=Sample.libs) Sample.anonymous Sample.ann_login Sample.kitchen
    = (Reply 200 (JObj [("token", JStr "jwt:i")]), Sample.kitchen,
       [SelectUserByEmail]) ∧
  get_recipes (H:=Sample.libs) (with_header "Bearer jwt:i" 5) Sample.kitchen
    = (Reply 200 (JArr (map recipe_json (all_recipes_of 1 Sample.kitchen))),
       Sample.kitchen, [SelectRecipesByUser]).
Proof.
  assert (valid_login (H:=Sample.libs) Sample.ann_login "a@x.com" "secret1") as Hv
    by (repeat split; done).
  split; [by auto using kitchen_sole_ann|].
  exact (login_opens_session (H:=Sample.libs) Sample.anonymous Sample.ann_login
           "a@x.com" "secret1" Sample.kitchen 1 Sample.ann 5 Hv kitchen_sole_ann
           eq_refl ltac:(discriminate) eq_refl).
Defined.

Lemma signup_twice_witness :
  (valid_signup (H:=Sample.libs) Sample.ann_signup "A" "a@x.com" "secret1" ∧
   valid_signup (H:=Sample.libs) Sample.second_signup "B" "a@x.com" "secret2") ∧
  ∃ r d',
    post_signup (H:=Sample.libs) Sample.anonymous "salt" Sample.ann_signup empty_db
      = (r, d', [InsertUser]) ∧
    status_of r = Some 201 ∧
    post_signup (H:=Sample.libs) Sample.anonymous "pepper" Sample.second_signup d'
      = (Reply 400 (error_body "Email already exists"), d', [InsertUser]).
Proof.
  assert (valid_signup (H:=Sample.libs) Sample.ann_signup "A" "a@x.com" "secret1") as Hv
    by (repeat split; try done; simpl; lia).
  assert (valid_signup (H:=Sample.libs) Sample.second_signup "B" "a@x.com" "secret2")
    as Hv' by (repeat split; try done; simpl; lia).
  split; [by split|].
  exact (signup_twice (H:=Sample.libs) Sample.anonymous Sample.anonymous "salt"
           "pepper" Sample.ann_signup Sample.second_signup "A" "B" "a@x.com"
           "secret1" "secret2" empty_db Hv (empty_db_unknown _) Hv').
Defined.


(** The password validator counts characters, not bytes: a password of
    three two-byte letters is refused, and nothing is sent to the
    database. *)
Example signup_counts_characters :
  String.length "ééé" = 6%nat ∧
  characters (Libs:=Sample.libs) "ééé" = 3%nat ∧
  post_signup (H:=Sample.libs) Sample.anonymous "salt"
    {| s_name := Val "E"; s_email := Val "e@x.com"; s_password := Val "ééé" |}
    empty_db
  = (Reply 400
       (errors_body
          [ entry "password" (Val "ééé") "Password must be at least 6 characters long" ]),
     empty_db, []).
Proof. repeat split; reflexivity. Qed.
